(** * Listing lifecycle and availability broadcast of tgram-availbot

    A shallow embedding of the Python sources
      - utils/constants.py, utils/formatting.py, db.py,
      - scheduler.py, handlers/admin.py
    followed by theorems about the embedded functions.

    Conventions of the embedding.
      - Instants and durations are integers counting microseconds, the
        resolution of Python's [datetime] and [timedelta].
      - The float returned by [timedelta.total_seconds()] is kept as a
        fixed-point number with six decimals (its value times 10^6), which is
        exact for every interval shorter than about 270 years.
      - An ISO-8601 text is kept as what [datetime.fromisoformat] makes of it.
      - Effects are threaded through a state-and-exception monad over a
        [World]: the three Supabase tables, the messages of the group chat,
        the outcome of the coming remote calls, and the trace of what was
        done. *)

From Stdlib Require Import ZArith List String Ascii Bool Lia DecimalString.
Import ListNotations.
Open Scope string_scope.
Open Scope Z_scope.

(* ================================================================== *)
(** * Python values                                                    *)
(* ================================================================== *)

Module Py.

(** Exceptions the modelled code can meet. *)
Inductive exn : Type :=
| ValueError
| TypeError
| AttributeError
| IndexError
| TelegramError
| APIError.

Inductive result (A : Type) : Type :=
| Ok (a : A)
| Raise (e : exn).
Arguments Ok {A} a.
Arguments Raise {A} e.

(** The values found in a profile row. *)
Inductive value : Type :=
| PyNone
| PyBool (b : bool)
| PyInt (z : Z)
| PyStr (s : string)
| PyList (l : list string).

(** Truth value of an object, as tested by [if x] and [not x]. *)
Definition truthy (v : value) : bool :=
  match v with
  | PyNone => false
  | PyBool b => b
  | PyInt z => negb (z =? 0)
  | PyStr s => negb (s =? "")%string
  | PyList l => match l with [] => false | _ => true end
  end.

(** [for x in v] and [enumerate(v)]: the items of a list, the characters
    of a text; the other values are not iterable. *)
Definition iter (v : value) : result (list string) :=
  match v with
  | PyList l => Ok l
  | PyStr s => Ok (map (fun c => String c EmptyString) (list_ascii_of_string s))
  | _ => Raise TypeError
  end.

(** A dict with string keys, in insertion order. *)
Definition dict : Type := list (string * value).

Fixpoint dict_lookup (d : dict) (k : string) : option value :=
  match d with
  | [] => None
  | (k', v) :: rest => if (k' =? k)%string then Some v else dict_lookup rest k
  end.

(** [d.get(k, default)] *)
Definition dict_get (d : dict) (k : string) (default : value) : value :=
  match dict_lookup d k with
  | Some v => v
  | None => default
  end.

(** [str(n)] and [f"{n}"] for an int. *)
Definition str (n : Z) : string := NilZero.string_of_int (Z.to_int n).

Definition newline : string := String (ascii_of_nat 10) EmptyString.

(** [s.replace(old, new)] for a non-empty [old]: the occurrences are
    replaced from left to right without overlap.  [skip] counts the
    characters of a matched occurrence that are still to be dropped. *)
Fixpoint replace_from (skip : nat) (old new s : string) : string :=
  match s with
  | EmptyString => EmptyString
  | String c rest =>
      match skip with
      | S k => replace_from k old new rest
      | O =>
          if String.prefix old s
          then new ++ replace_from (String.length old - 1) old new rest
          else String c (replace_from O old new rest)
      end
  end.

Definition replace (old new s : string) : string := replace_from O old new s.

(** [s.startswith(p)] *)
Definition startswith (s p : string) : bool := String.prefix p s.

(** [s.split(sep)[-1]] for a one-character [sep]: what follows the last
    separator, or the whole text when there is none. *)
Fixpoint split_last (sep : ascii) (s : string) (acc : string) : string :=
  match s with
  | EmptyString => acc
  | String c rest =>
      if Ascii.eqb c sep then split_last sep rest EmptyString
      else split_last sep rest (acc ++ String c EmptyString)
  end.

Definition digit_of (c : ascii) : option Z :=
  let n := Z.of_nat (nat_of_ascii c) in
  if (48 <=? n) && (n <=? 57) then Some (n - 48) else None.

Fixpoint digits_value (s : string) (acc : Z) : option Z :=
  match s with
  | EmptyString => Some acc
  | String c rest =>
      match digit_of c with
      | Some d => digits_value rest (10 * acc + d)
      | None => None
      end
  end.

(** [int(s)] for a text: an optional sign and ASCII digits.  The other
    spellings Python reads (surrounding blanks, digit separators) are not
    produced by the callers and are taken as [ValueError]. *)
Definition int_of_str (s : string) : result Z :=
  match s with
  | EmptyString => Raise ValueError
  | String c rest =>
      if Ascii.eqb c "-" then
        match rest, digits_value rest 0 with
        | String _ _, Some n => Ok (- n)
        | _, _ => Raise ValueError
        end
      else if Ascii.eqb c "+" then
        match rest, digits_value rest 0 with
        | String _ _, Some n => Ok n
        | _, _ => Raise ValueError
        end
      else
        match digits_value s 0 with
        | Some n => Ok n
        | None => Raise ValueError
        end
  end.

(** ** Time *)

(** [timedelta]: a signed count of microseconds. *)
Definition timedelta : Type := Z.

Definition timedelta_hours (h : Z) : timedelta := h * 3600000000.
Definition timedelta_minutes (m : Z) : timedelta := m * 60000000.

(** A float holding seconds, as its value times 10^6. *)
Definition pyfloat : Type := Z.

Definition total_seconds (td : timedelta) : pyfloat := td.
(** [timedelta(seconds=x)] *)
Definition timedelta_seconds (x : pyfloat) : timedelta := x.
(** [x // k] and [x % k] for an int [k]; the result is a float. *)
Definition floordiv (x : pyfloat) (k : Z) : pyfloat := (x / (k * 1000000)) * 1000000.
Definition fmod (x : pyfloat) (k : Z) : pyfloat := x mod (k * 1000000).
(** [int(x)]: truncation toward zero. *)
Definition int_of_float (x : pyfloat) : Z := Z.quot x 1000000.

(** [datetime]: aware (an instant, microseconds since the epoch in UTC) or
    naive (a wall-clock reading without offset). *)
Inductive datetime : Type :=
| Aware (utc : Z)
| Naive (wall : Z).

(** The text of a timestamp column, after [.replace('Z', '+00:00')]: one
    that [datetime.fromisoformat] reads as an aware datetime, one it reads
    as a naive datetime, or one it rejects. *)
Inductive iso_text : Type :=
| IsoAware (utc : Z)
| IsoNaive (wall : Z)
| IsoMalformed (raw : string).

(** [datetime.fromisoformat(s.replace('Z', '+00:00'))] *)
Definition fromisoformat (s : iso_text) : result datetime :=
  match s with
  | IsoAware t => Ok (Aware t)
  | IsoNaive t => Ok (Naive t)
  | IsoMalformed _ => Raise ValueError
  end.

(** [d.isoformat()] *)
Definition isoformat (d : datetime) : iso_text :=
  match d with
  | Aware t => IsoAware t
  | Naive t => IsoNaive t
  end.

(** [d + td] *)
Definition dt_add (d : datetime) (td : timedelta) : datetime :=
  match d with
  | Aware t => Aware (t + td)
  | Naive t => Naive (t + td)
  end.

(** [a - b]: mixing a naive and an aware datetime is a [TypeError]. *)
Definition dt_sub (a b : datetime) : result timedelta :=
  match a, b with
  | Aware x, Aware y => Ok (x - y)
  | Naive x, Naive y => Ok (x - y)
  | _, _ => Raise TypeError
  end.

(** [a < b] and [a <= b], with the same restriction. *)
Definition dt_lt (a b : datetime) : result bool :=
  match a, b with
  | Aware x, Aware y => Ok (x <? y)
  | Naive x, Naive y => Ok (x <? y)
  | _, _ => Raise TypeError
  end.

Definition dt_le (a b : datetime) : result bool :=
  match a, b with
  | Aware x, Aware y => Ok (x <=? y)
  | Naive x, Naive y => Ok (x <=? y)
  | _, _ => Raise TypeError
  end.

(** [datetime.now(timezone.utc)] with the clock reading [now]. *)
Definition datetime_now (now : Z) : datetime := Aware now.

End Py.
Import Py.

(* ================================================================== *)
(** * utils/constants.py                                               *)
(* ================================================================== *)

Module Constants.

(** The values read from the environment and the bot configuration. *)
Record t : Type := mk {
  APPROVED_ADMIN_IDS : list Z;
  (** the id of the group chat; the variable holds its decimal text *)
  GROUP_CHAT_ID : Z;
  COOLDOWN_MINUTES : Z;
  LISTING_DURATIONS : list (string * Z)
}.

Definition LISTING_DURATIONS_default : list (string * Z) :=
  [("2h", 2); ("4h", 4); ("6h", 6)].

(** The configuration of the repository for a given environment. *)
Definition of_env (admins : list Z) (group_chat_id : Z) : t :=
  mk admins group_chat_id 30 LISTING_DURATIONS_default.

Definition LIST_TYPE_PINNED : string := "pinned".
Definition LIST_TYPE_CHAT : string := "chat".

End Constants.

(* ================================================================== *)
(** * Rows of the tables                                               *)
(* ================================================================== *)

(** A row of [active_listings]. *)
Module Listing.
Record t : Type := mk {
  id : Z;
  user_id : Z;
  message_id : Z;
  expires_at : iso_text;
  duration_hours : Z;
  last_bump_at : iso_text
}.
End Listing.

(** [profiles.get(user_id)] on a dict keyed by user id. *)
Fixpoint profiles_get (profiles : list (Z * dict)) (user_id : Z) : option dict :=
  match profiles with
  | [] => None
  | (k, p) :: rest => if k =? user_id then Some p else profiles_get rest user_id
  end.

(** [not profile] for the result of a lookup: [None] and the empty dict are
    falsy. *)
Definition no_profile (profile : option dict) : bool :=
  match profile with
  | None => true
  | Some [] => true
  | Some (_ :: _) => false
  end.

(* ================================================================== *)
(** * utils/formatting.py                                              *)
(* ================================================================== *)

Module Formatting.

(** The body of the [try] block of [format_time_remaining]. *)
Definition format_time_remaining_try (now : Z) (expires_at : iso_text) : result string :=
  match fromisoformat expires_at with
  | Raise e => Raise e
  | Ok expiry_time =>
      let now := datetime_now now in
      match dt_sub expiry_time now with
      | Raise e => Raise e
      | Ok time_diff =>
          if total_seconds time_diff <=? 0 then Ok "EXPIRED"
          else
            let total_seconds := int_of_float (total_seconds time_diff) in
            let hours := total_seconds / 3600 in
            let minutes := (total_seconds mod 3600) / 60 in
            let seconds := total_seconds mod 60 in
            if hours >? 0 then
              Ok (str hours ++ "h " ++ str minutes ++ "m " ++ str seconds ++ "s")
            else if minutes >? 0 then
              Ok (str minutes ++ "m " ++ str seconds ++ "s")
            else
              Ok (str seconds ++ "s")
      end
  end.

(** [format_time_remaining]: any exception of the body gives ["N/A"]. *)
Definition format_time_remaining (now : Z) (expires_at : iso_text) : string :=
  match format_time_remaining_try now expires_at with
  | Ok s => s
  | Raise _ => "N/A"
  end.

(** The characters escaped for MarkdownV2, in the order of the chain of
    [replace] calls. *)
Definition markdown_specials : list string :=
  ["_"; "*"; "["; "]"; "("; ")"; "~"; "`"; ">"; "#"; "+"; "-"; "="; "|";
   "{"; "}"; "."; "!"].

(** [escape_markdown_v2]: a falsy argument gives the empty text; a truthy
    one that is not a text has no [replace]. *)
Definition escape_markdown_v2 (text : value) : result string :=
  if negb (truthy text) then Ok ""
  else
    match text with
    | PyStr s =>
        Ok (fold_left (fun t c => replace c ("\" ++ c) t) markdown_specials s)
    | _ => Raise AttributeError
    end.

(** [generate_listing_message] renders one listing.  Its rules are those
    of the rendering collaborator and no property below depends on them:
    the handlers take it as an argument [render]. *)
Definition renderer : Type := dict -> iso_text -> result string.

(** The line of one listing in the summary; [i] is its index in the
    enumeration. *)
Definition list_entry (i : Z) (name_subject : string) (allow_comments : value)
           (chat_id : Z) (listing : Listing.t) : string :=
  let link_chat_id := replace "-100" "" (str chat_id) in
  let message_link :=
    "https://t.me/c/" ++ link_chat_id ++ "/" ++ str (Listing.message_id listing) in
  let comment_icon := if truthy allow_comments then "💬" else "" in
  str (i + 1) ++ "\. " ++ name_subject ++ " " ++ comment_icon
    ++ " [View Post](" ++ message_link ++ ")" ++ newline.

(** The [for i, listing in enumerate(active_listings)] loop. *)
Fixpoint generate_list_message_loop (profiles : list (Z * dict)) (chat_id : Z)
         (i : Z) (active_listings : list Listing.t) (message : string)
  : result string :=
  match active_listings with
  | [] => Ok message
  | listing :: rest =>
      let user_id := Listing.user_id listing in
      let profile := profiles_get profiles user_id in
      if no_profile profile then
        generate_list_message_loop profiles chat_id (i + 1) rest message
      else
        let profile := match profile with Some p => p | None => [] end in
        match escape_markdown_v2
                (dict_get profile "name_subject" (PyStr ("Model " ++ str user_id))) with
        | Raise e => Raise e
        | Ok name_subject =>
            let allow_comments := dict_get profile "allow_comments" (PyBool false) in
            generate_list_message_loop profiles chat_id (i + 1) rest
              (message ++ list_entry i name_subject allow_comments chat_id listing)
        end
  end.

Definition generate_list_message (active_listings : list Listing.t)
           (profiles : list (Z * dict)) (chat_id : Z) : result string :=
  let count := Z.of_nat (List.length active_listings) in
  let message := "*AVAILABLE NOW (" ++ str count ++ " available)*" ++ newline ++ newline in
  if count =? 0 then
    Ok (message ++ "No models are currently available\. Check back soon\!")
  else
    generate_list_message_loop profiles chat_id 0 active_listings message.

End Formatting.

(* ================================================================== *)
(** * The world and its monad                                          *)
(* ================================================================== *)

(** One item of a media group. *)
Inductive media : Type :=
| InputMediaPhoto (file_id : string) (caption : option string)
| InputMediaVideo (file_id : string) (caption : option string).

Definition media_caption (m : media) : option string :=
  match m with
  | InputMediaPhoto _ c => c
  | InputMediaVideo _ c => c
  end.

(** The calls of the Channel Gateway: the methods of [bot] on the group chat. *)
Inductive bot_call : Type :=
| DeleteMessage (message_id : Z)
| SendMessage (text : string)
| SendMediaGroup (items : list media)
| EditMessageText (message_id : Z) (text : string).

(** The requests sent to Supabase. *)
Inductive db_call : Type :=
| SelectProfile (user_id : Z)
| SelectListing (user_id : Z)
| SelectAllListings
| InsertListing (user_id message_id : Z)
| UpdateListing (listing_id message_id : Z)
| DeleteListing (listing_id : Z)
| SelectListMessage (list_type : string).

(** What a run leaves behind, in order.
      - [EvPrint fmt args]: a line printed; [fmt] is the text of the f-string
        with its integer fields in [args] (the text of a caught exception is
        left out);
      - [EvReply fmt args]: feedback to the user who sent the update
        ([reply_text], [query.answer], [query.edit_message_text]);
      - [EvBot call r]: a Channel Gateway call; [r] is the id of the message
        sent or acted on, [None] when the call raised;
      - [EvDb call ok]: a request to the store and whether it went through. *)
Inductive event : Type :=
| EvPrint (fmt : string) (args : list Z)
| EvReply (fmt : string) (args : list Z)
| EvBot (call : bot_call) (r : option Z)
| EvDb (call : db_call) (ok : bool).

(** [context.user_data] of one user. *)
Record UserData : Type := mkUserData {
  bump_listing_id : option Z;
  bump_time_remaining : option pyfloat
}.

Definition empty_user_data : UserData := mkUserData None None.

Record World : Type := mkWorld {
  (** table [profiles]: the [user_id] column and the row *)
  profiles : list (Z * dict);
  (** table [active_listings] *)
  active_listings : list Listing.t;
  (** table [list_messages]: type and message id *)
  list_messages : list (string * Z);
  (** the id the store gives to the next listing *)
  next_listing_id : Z;
  (** the messages of the group chat that exist: id and text *)
  chat : list (Z * string);
  next_message_id : Z;
  (** [context.user_data], by user *)
  user_data : list (Z * UserData);
  (** whether each of the coming remote calls fails (none does once the
      list is used up) *)
  faults : list bool;
  trace : list event
}.

Definition M (A : Type) : Type := World -> result A * World.

Definition ret {A : Type} (a : A) : M A := fun w => (Ok a, w).

Definition bind {A B : Type} (m : M A) (f : A -> M B) : M B :=
  fun w =>
    match m w with
    | (Ok a, w') => f a w'
    | (Raise e, w') => (Raise e, w')
    end.

Definition raise {A : Type} (e : exn) : M A := fun w => (Raise e, w).

(** [try: m  except Exception as e: handler e] *)
Definition try_except {A : Type} (m : M A) (handler : exn -> M A) : M A :=
  fun w =>
    match m w with
    | (Ok a, w') => (Ok a, w')
    | (Raise e, w') => handler e w'
    end.

Definition lift {A : Type} (r : result A) : M A := fun w => (r, w).

Declare Scope monad_scope.
Delimit Scope monad_scope with monad.
Notation "x <- m ;; k" := (bind m (fun x => k))
  (at level 61, m at next level, right associativity) : monad_scope.
Notation "m ;; k" := (bind m (fun _ => k))
  (at level 61, right associativity) : monad_scope.
Open Scope monad_scope.

Definition get_world : M World := fun w => (Ok w, w).

Definition emit (e : event) : M unit :=
  fun w =>
    (Ok tt,
     mkWorld (profiles w) (active_listings w) (list_messages w) (next_listing_id w)
             (chat w) (next_message_id w) (user_data w) (faults w) (trace w ++ [e])).

Definition print (fmt : string) (args : list Z) : M unit := emit (EvPrint fmt args).
Definition reply (fmt : string) (args : list Z) : M unit := emit (EvReply fmt args).

(** The next remote call: does it fail? *)
Definition next_fault : M bool :=
  fun w =>
    match faults w with
    | [] => (Ok false, w)
    | f :: rest =>
        (Ok f,
         mkWorld (profiles w) (active_listings w) (list_messages w) (next_listing_id w)
                 (chat w) (next_message_id w) (user_data w) rest (trace w))
    end.

Definition set_active_listings (ls : list Listing.t) : M unit :=
  fun w =>
    (Ok tt,
     mkWorld (profiles w) ls (list_messages w) (next_listing_id w)
             (chat w) (next_message_id w) (user_data w) (faults w) (trace w)).

Definition set_next_listing_id (n : Z) : M unit :=
  fun w =>
    (Ok tt,
     mkWorld (profiles w) (active_listings w) (list_messages w) n
             (chat w) (next_message_id w) (user_data w) (faults w) (trace w)).

Definition set_chat (c : list (Z * string)) (next : Z) : M unit :=
  fun w =>
    (Ok tt,
     mkWorld (profiles w) (active_listings w) (list_messages w) (next_listing_id w)
             c next (user_data w) (faults w) (trace w)).

Definition set_user_data (u : list (Z * UserData)) : M unit :=
  fun w =>
    (Ok tt,
     mkWorld (profiles w) (active_listings w) (list_messages w) (next_listing_id w)
             (chat w) (next_message_id w) u (faults w) (trace w)).

Definition set_list_messages (lm : list (string * Z)) : M unit :=
  fun w =>
    (Ok tt,
     mkWorld (profiles w) (active_listings w) lm (next_listing_id w)
             (chat w) (next_message_id w) (user_data w) (faults w) (trace w)).

(* ================================================================== *)
(** * The Channel Gateway: [bot]                                       *)
(* ================================================================== *)

Module Bot.

Definition has_message (c : list (Z * string)) (message_id : Z) : bool :=
  existsb (fun m => fst m =? message_id) c.

Definition remove_message (c : list (Z * string)) (message_id : Z) : list (Z * string) :=
  filter (fun m => negb (fst m =? message_id)) c.

Definition set_text (c : list (Z * string)) (message_id : Z) (text : string)
  : list (Z * string) :=
  map (fun m => if fst m =? message_id then (message_id, text) else m) c.

(** [bot.delete_message]: fails on a fault and on a message that is not
    there. *)
Definition delete_message (message_id : Z) : M unit :=
  fault <- next_fault ;;
  w <- get_world ;;
  if fault || negb (has_message (chat w) message_id) then
    emit (EvBot (DeleteMessage message_id) None) ;;
    raise TelegramError
  else
    set_chat (remove_message (chat w) message_id) (next_message_id w) ;;
    emit (EvBot (DeleteMessage message_id) (Some message_id)).

(** [bot.send_message]: the id of the message sent. *)
Definition send_message (text : string) : M Z :=
  fault <- next_fault ;;
  w <- get_world ;;
  if fault then
    emit (EvBot (SendMessage text) None) ;;
    raise TelegramError
  else
    let message_id := next_message_id w in
    set_chat (chat w ++ [(message_id, text)]) (message_id + 1) ;;
    emit (EvBot (SendMessage text) (Some message_id)) ;;
    ret message_id.

(** The messages of an album: one per item, with consecutive ids. *)
Fixpoint album (first : Z) (items : list media) : list (Z * string) :=
  match items with
  | [] => []
  | m :: rest =>
      (first, match media_caption m with Some c => c | None => "" end)
        :: album (first + 1) rest
  end.

(** [bot.send_media_group]: the ids of the messages sent; an empty group
    is refused. *)
Definition send_media_group (items : list media) : M (list Z) :=
  fault <- next_fault ;;
  w <- get_world ;;
  if fault || match items with [] => true | _ => false end then
    emit (EvBot (SendMediaGroup items) None) ;;
    raise TelegramError
  else
    let first := next_message_id w in
    let sent := album first items in
    set_chat (chat w ++ sent) (first + Z.of_nat (List.length items)) ;;
    emit (EvBot (SendMediaGroup items) (Some first)) ;;
    ret (map fst sent).

(** [bot.edit_message_text] *)
Definition edit_message_text (message_id : Z) (text : string) : M unit :=
  fault <- next_fault ;;
  w <- get_world ;;
  if fault || negb (has_message (chat w) message_id) then
    emit (EvBot (EditMessageText message_id text) None) ;;
    raise TelegramError
  else
    set_chat (set_text (chat w) message_id text) (next_message_id w) ;;
    emit (EvBot (EditMessageText message_id text) (Some message_id)).

End Bot.

(* ================================================================== *)
(** * db.py                                                            *)
(* ================================================================== *)

Module Db.

(** [.execute()]: the request fails as a whole on a fault. *)
Definition execute (call : db_call) : M unit :=
  fault <- next_fault ;;
  emit (EvDb call (negb fault)) ;;
  if fault then raise APIError else ret tt.

(** The names bound in the module: its imports, the client and its
    functions. *)
Definition names : list string :=
  ["create_client"; "Client"; "datetime"; "timezone";
   "SUPABASE_URL"; "SUPABASE_KEY"; "TABLE_PROFILES"; "TABLE_ACTIVE_LISTINGS";
   "TABLE_LIST_MESSAGES"; "LIST_TYPE_PINNED"; "LIST_TYPE_CHAT";
   "supabase";
   "get_profile"; "save_profile"; "delete_profile"; "get_active_listing";
   "get_all_active_listings"; "save_active_listing"; "update_active_listing";
   "delete_active_listing"; "get_list_message"; "save_list_message"].

(** [db.<name>]: looking up a name the module does not bind is an
    [AttributeError]. *)
Definition getattr (name : string) : result string :=
  if existsb (String.eqb name) names then Ok name else Raise AttributeError.

Definition get_profile (user_id : Z) : M (option dict) :=
  try_except
    (execute (SelectProfile user_id) ;;
     w <- get_world ;;
     match filter (fun r => fst r =? user_id) (profiles w) with
     | r :: _ => ret (Some (snd r))
     | [] => ret None
     end)
    (fun e =>
       print "Error fetching profile for {}: {}" [user_id] ;;
       ret None).

Definition get_active_listing (user_id : Z) : M (option Listing.t) :=
  try_except
    (execute (SelectListing user_id) ;;
     w <- get_world ;;
     match filter (fun l => Listing.user_id l =? user_id) (active_listings w) with
     | l :: _ => ret (Some l)
     | [] => ret None
     end)
    (fun e =>
       print "Error fetching active listing for {}: {}" [user_id] ;;
       ret None).

(** The sort key of a timestamp column (a text the column could not hold
    sorts as the epoch). *)
Definition timestamp_key (s : iso_text) : Z :=
  match s with
  | IsoAware t => t
  | IsoNaive t => t
  | IsoMalformed _ => 0
  end.

Fixpoint insert_desc (l : Listing.t) (sorted : list Listing.t) : list Listing.t :=
  match sorted with
  | [] => [l]
  | x :: rest =>
      if timestamp_key (Listing.last_bump_at x) <=? timestamp_key (Listing.last_bump_at l)
      then l :: sorted
      else x :: insert_desc l rest
  end.

(** [.order("last_bump_at", desc=True)] *)
Definition order_by_last_bump_at_desc (ls : list Listing.t) : list Listing.t :=
  fold_right insert_desc [] ls.

Definition get_all_active_listings : M (list Listing.t) :=
  try_except
    (execute SelectAllListings ;;
     w <- get_world ;;
     ret (order_by_last_bump_at_desc (active_listings w)))
    (fun e =>
       print "Error fetching all active listings: {}" [] ;;
       ret []).

(** [save_active_listing(data)]; [last_bump_at] is [None] when the key is
    not in [data], and is then set from the clock. *)
Definition save_active_listing (now : Z) (user_id message_id : Z)
           (expires_at : iso_text) (duration_hours : Z)
           (last_bump_at : option iso_text) : M bool :=
  try_except
    (let last_bump_at :=
       match last_bump_at with
       | Some t => t
       | None => isoformat (datetime_now now)
       end in
     execute (InsertListing user_id message_id) ;;
     w <- get_world ;;
     let row := Listing.mk (next_listing_id w) user_id message_id expires_at
                           duration_hours last_bump_at in
     set_active_listings (active_listings w ++ [row]) ;;
     set_next_listing_id (next_listing_id w + 1) ;;
     ret true)
    (fun e =>
       print "Error saving active listing: {}" [] ;;
       ret false).

(** [update_active_listing(listing_id, data)] with the four keys the bump
    writes. *)
Definition update_active_listing (listing_id : Z) (message_id : Z)
           (expires_at : iso_text) (duration_hours : Z) (last_bump_at : iso_text)
  : M bool :=
  try_except
    (execute (UpdateListing listing_id message_id) ;;
     w <- get_world ;;
     set_active_listings
       (map (fun l =>
               if Listing.id l =? listing_id
               then Listing.mk (Listing.id l) (Listing.user_id l) message_id
                               expires_at duration_hours last_bump_at
               else l)
            (active_listings w)) ;;
     ret (existsb (fun l => Listing.id l =? listing_id) (active_listings w)))
    (fun e =>
       print "Error updating active listing {}: {}" [listing_id] ;;
       ret false).

(** [delete_active_listing(listing_id)]: [True] when a row was deleted. *)
Definition delete_active_listing (listing_id : Z) : M bool :=
  try_except
    (execute (DeleteListing listing_id) ;;
     w <- get_world ;;
     set_active_listings
       (filter (fun l => negb (Listing.id l =? listing_id)) (active_listings w)) ;;
     ret (existsb (fun l => Listing.id l =? listing_id) (active_listings w)))
    (fun e =>
       print "Error deleting active listing {}: {}" [listing_id] ;;
       ret false).

(** [get_list_message(list_type)]: the [message_id] of the row. *)
Definition get_list_message (list_type : string) : M (option Z) :=
  try_except
    (execute (SelectListMessage list_type) ;;
     w <- get_world ;;
     match filter (fun r => (fst r =? list_type)%string) (list_messages w) with
     | r :: _ => ret (Some (snd r))
     | [] => ret None
     end)
    (fun e =>
       print "Error fetching list message for {}: {}" [] ;;
       ret None).

(** A request like [execute], of which the trace keeps no entry. *)
Definition execute_untraced : M unit :=
  fault <- next_fault ;;
  if fault then raise APIError else ret tt.

(** [.upsert(data, on_conflict="type")]: the row of that type is replaced,
    or the row is added when there is none. *)
Fixpoint upsert_list_message (rows : list (string * Z)) (list_type : string)
         (message_id : Z) : list (string * Z) :=
  match rows with
  | [] => [(list_type, message_id)]
  | (t, m) :: rest =>
      if (t =? list_type)%string then (t, message_id) :: rest
      else (t, m) :: upsert_list_message rest list_type message_id
  end.

(** [save_list_message(list_type, message_id)] *)
Definition save_list_message (list_type : string) (message_id : Z) : M bool :=
  try_except
    (execute_untraced ;;
     w <- get_world ;;
     set_list_messages (upsert_list_message (list_messages w) list_type message_id) ;;
     ret true)
    (fun e =>
       print "Error saving list message for {}: {}" [] ;;
       ret false).

End Db.

(* ================================================================== *)
(** * scheduler.py                                                     *)
(* ================================================================== *)

Module Scheduler.

(** [profiles[user_id] = profile] *)
Fixpoint profiles_set (profiles : list (Z * dict)) (user_id : Z) (profile : dict)
  : list (Z * dict) :=
  match profiles with
  | [] => [(user_id, profile)]
  | (k, p) :: rest =>
      if k =? user_id then (k, profile) :: rest
      else (k, p) :: profiles_set rest user_id profile
  end.

(** The loop of [get_profiles_for_listings] over [user_ids]. *)
Fixpoint get_profiles_loop (user_ids : list Z) (profiles : list (Z * dict))
  : M (list (Z * dict)) :=
  match user_ids with
  | [] => ret profiles
  | user_id :: rest =>
      profile <- Db.get_profile user_id ;;
      if no_profile profile then get_profiles_loop rest profiles
      else
        let profile := match profile with Some p => p | None => [] end in
        get_profiles_loop rest (profiles_set profiles user_id profile)
  end.

Definition get_profiles_for_listings (listings : list Listing.t)
  : M (list (Z * dict)) :=
  let user_ids := map Listing.user_id listings in
  get_profiles_loop user_ids [].

Definition update_available_lists (cfg : Constants.t) : M unit :=
  print "Running update_available_lists job..." [] ;;
  active_listings <- Db.get_all_active_listings ;;
  profiles <- get_profiles_for_listings active_listings ;;
  match active_listings with
  | [] => print "No active listings found. Skipping list update." []
  | _ :: _ =>
      list_content <- lift (Formatting.generate_list_message
                              active_listings profiles (Constants.GROUP_CHAT_ID cfg)) ;;
      (* 1. Update Pinned List *)
      pinned_msg_data <- Db.get_list_message Constants.LIST_TYPE_PINNED ;;
      match pinned_msg_data with
      | Some message_id =>
          try_except
            (Bot.edit_message_text message_id list_content ;;
             print "Updated Pinned List message {}" [message_id])
            (fun e => print "Error updating Pinned List: {}" [])
      | None => print "Pinned List message ID not found in DB. Cannot update." []
      end
  end.

(** The loop of [update_countdown_timers].  The new text is asked of
    [db.generate_listing_message], outside the [try]; [db] binds no such
    name, so no function is reached and the call cannot go through. *)
Fixpoint update_countdown_loop (now : Z) (active_listings : list Listing.t) : M unit :=
  match active_listings with
  | [] => ret tt
  | listing :: rest =>
      let time_remaining := Formatting.format_time_remaining now (Listing.expires_at listing) in
      profile <- Db.get_profile (Listing.user_id listing) ;;
      if no_profile profile then
        print "Profile not found for listing {}" [Listing.id listing] ;;
        update_countdown_loop now rest
      else
        new_message_text <-
          (_ <- lift (Db.getattr "generate_listing_message") ;;
           raise TypeError) ;;
        try_except
          (Bot.edit_message_text (Listing.message_id listing) new_message_text)
          (fun e => print "Error updating countdown for listing {}: {}" [Listing.id listing]) ;;
        update_countdown_loop now rest
  end.

Definition update_countdown_timers (now : Z) : M unit :=
  print "Running update_countdown_timers job..." [] ;;
  active_listings <- Db.get_all_active_listings ;;
  update_countdown_loop now active_listings.

(** Expire: what [cleanup_expired_listings] does to an expired listing
    (the body of [if expiry_time <= now]). *)
Definition expire (listing : Listing.t) : M unit :=
  print "Listing {} for user {} has expired." [Listing.id listing; Listing.user_id listing] ;;
  (* 1. Delete message from group chat *)
  try_except
    (Bot.delete_message (Listing.message_id listing) ;;
     print "Deleted message {} from chat." [Listing.message_id listing])
    (fun e => print "Error deleting message {}: {}" [Listing.message_id listing]) ;;
  (* 2. Delete record from active_listings table *)
  deleted <- Db.delete_active_listing (Listing.id listing) ;;
  if deleted then print "Deleted listing record {} from DB." [Listing.id listing]
  else print "Failed to delete listing record {} from DB." [Listing.id listing].

(** The loop of [cleanup_expired_listings]; the result is the final value
    of [listings_expired]. *)
Fixpoint cleanup_loop (now : datetime) (active_listings : list Listing.t)
         (listings_expired : bool) : M bool :=
  match active_listings with
  | [] => ret listings_expired
  | listing :: rest =>
      expiry_time <- lift (fromisoformat (Listing.expires_at listing)) ;;
      is_expired <- lift (dt_le expiry_time now) ;;
      if is_expired then
        expire listing ;;
        cleanup_loop now rest true
      else
        cleanup_loop now rest listings_expired
  end.

Definition cleanup_expired_listings (cfg : Constants.t) (now : Z) : M unit :=
  print "Running cleanup_expired_listings job..." [] ;;
  active_listings <- Db.get_all_active_listings ;;
  let now := datetime_now now in
  listings_expired <- cleanup_loop now active_listings false ;;
  if listings_expired then
    (* 3. Update the available lists if any listing expired *)
    update_available_lists cfg
  else ret tt.

End Scheduler.

(* ================================================================== *)
(** * handlers/admin.py                                                *)
(* ================================================================== *)

Module Admin.

(** What a handler reads of its [update]: the user and the chat it comes
    from and, for a button, [query.data]. *)
Record Update : Type := mkUpdate {
  effective_user_id : Z;
  effective_chat_id : Z;
  data : string
}.

(** [context.user_data] of a user. *)
Fixpoint user_data_of (u : list (Z * UserData)) (user_id : Z) : UserData :=
  match u with
  | [] => empty_user_data
  | (k, d) :: rest => if k =? user_id then d else user_data_of rest user_id
  end.

Fixpoint user_data_put (u : list (Z * UserData)) (user_id : Z) (d : UserData)
  : list (Z * UserData) :=
  match u with
  | [] => [(user_id, d)]
  | (k, d') :: rest =>
      if k =? user_id then (k, d) :: rest
      else (k, d') :: user_data_put rest user_id d
  end.

Definition get_user_data (user_id : Z) : M UserData :=
  w <- get_world ;; ret (user_data_of (user_data w) user_id).

Definition put_user_data (user_id : Z) (d : UserData) : M unit :=
  w <- get_world ;; set_user_data (user_data_put (user_data w) user_id d).

Definition is_admin (cfg : Constants.t) (user_id : Z) : bool :=
  existsb (Z.eqb user_id) (Constants.APPROVED_ADMIN_IDS cfg).

Definition check_admin (cfg : Constants.t) (update : Update) : M bool :=
  if negb (is_admin cfg (effective_user_id update)) then
    reply "This bot is for authorized users only." [] ;;
    ret false
  else ret true.

(** [update_available_lists_now]: only logs; the pinned view is left to
    the scheduler. *)
Definition update_available_lists_now : M unit :=
  print "Triggering list update via scheduler job..." [].

(** [LISTING_DURATIONS.get(k)] *)
Fixpoint durations_get (d : list (string * Z)) (k : string) : option Z :=
  match d with
  | [] => None
  | (k', v) :: rest => if (k' =? k)%string then Some v else durations_get rest k
  end.

(** [InputMediaPhoto]/[InputMediaVideo] items of the two loops of
    [post_listing_callback]: the caption goes to item 0 when the other
    kind is empty. *)
Fixpoint media_loop (mk : string -> option string -> media) (i : Z)
         (file_ids : list string) (message_text : string) (other : value)
  : list media :=
  match file_ids with
  | [] => []
  | file_id :: rest =>
      let caption :=
        if (i =? 0) && negb (truthy other) then Some message_text else None in
      mk file_id caption :: media_loop mk (i + 1) rest message_text other
  end.

Section Handlers.

Variable cfg : Constants.t.
Variable generate_listing_message : Formatting.renderer.


(** [now1] and [now2] are the two readings of the clock, in order. *)
Definition post_listing_callback (update : Update) (now1 now2 : Z) : M unit :=
  reply "query.answer()" [] ;;
  let user_id := effective_user_id update in
  let duration_str := replace "duration_" "" (data update) in
  match durations_get (Constants.LISTING_DURATIONS cfg) duration_str with
  | None => reply "Invalid duration selected." []
  | Some duration_hours =>
    if duration_hours =? 0 then reply "Invalid duration selected." []
    else
      profile <- Db.get_profile user_id ;;
      if no_profile profile then reply "Error: Profile not found." []
      else
        let profile := match profile with Some p => p | None => [] end in
        (* Calculate expiry time *)
        let expires_at := dt_add (datetime_now now1) (timedelta_hours duration_hours) in
        (* Generate message content *)
        message_text <- lift (generate_listing_message profile (isoformat expires_at)) ;;
        (* Prepare media group *)
        let photos := dict_get profile "photo_file_ids" (PyList []) in
        let videos := dict_get profile "video_file_ids" (PyList []) in
        sent_message <-
          (if truthy photos || truthy videos then
             photo_ids <- lift (iter photos) ;;
             video_ids <- lift (iter videos) ;;
             let media_items :=
               (media_loop InputMediaPhoto 0 photo_ids message_text videos
                  ++ media_loop InputMediaVideo 0 video_ids message_text photos)%list in
             (* Telegram limit is 10 media items *)
             let media_items := firstn 10 media_items in
             match media_items with
             | _ :: _ =>
                 try_except
                   (sent_messages <- Bot.send_media_group media_items ;;
                    match sent_messages with
                    | m :: _ => ret m
                    | [] => raise IndexError
                    end)
                   (fun e =>
                      print "Error sending media group: {}. Falling back to text message." [] ;;
                      Bot.send_message message_text)
             | [] => Bot.send_message message_text
             end
           else Bot.send_message message_text) ;;
        (* Save active listing *)
        Db.save_active_listing now2 user_id sent_message (isoformat expires_at)
                               duration_hours
                               (Some (isoformat (datetime_now now2))) ;;
        (* Trigger list update *)
        update_available_lists_now ;;
        reply "✅ Your listing is now live for {} hours! It will automatically expire at {}."
              [duration_hours;
               match expires_at with Aware t => t | Naive t => t end]
  end.

Definition bump_command (update : Update) (now : Z) : M unit :=
  ok <- check_admin cfg update ;;
  if negb ok then ret tt
  else if negb (effective_chat_id update =? Constants.GROUP_CHAT_ID cfg) then
    reply "Please use this command in the designated group chat." []
  else
    let user_id := effective_user_id update in
    listing <- Db.get_active_listing user_id ;;
    match listing with
    | None =>
        reply "You do not have an active listing to bump. Use /available to go live." []
    | Some listing =>
        (* Cooldown check *)
        last_bump_at <- lift (fromisoformat (Listing.last_bump_at listing)) ;;
        let cooldown_end :=
          dt_add last_bump_at (timedelta_minutes (Constants.COOLDOWN_MINUTES cfg)) in
        let now := datetime_now now in
        on_cooldown <- lift (dt_lt now cooldown_end) ;;
        if on_cooldown then
          time_left <- lift (dt_sub cooldown_end now) ;;
          let minutes := int_of_float (floordiv (total_seconds time_left) 60) in
          let seconds := int_of_float (fmod (total_seconds time_left) 60) in
          reply "❌ Please wait {}m {}s before bumping again." [minutes; seconds]
        else
          (* Calculate remaining time *)
          expires_at <- lift (fromisoformat (Listing.expires_at listing)) ;;
          time_remaining <- lift (dt_sub expires_at now) ;;
          let remaining_hours :=
            int_of_float (floordiv (total_seconds time_remaining) 3600) in
          let remaining_minutes :=
            int_of_float (floordiv (fmod (total_seconds time_remaining) 3600) 60) in
          (* Prompt for keep remaining or reset *)
          reply "You have {}h {}m remaining on your availability. Do you want to keep the remaining time or reset the timer?"
                [remaining_hours; remaining_minutes] ;;
          (* Store listing ID and remaining time in context for the callback *)
          put_user_data user_id
            (mkUserData (Some (Listing.id listing))
                        (Some (total_seconds time_remaining)))
    end.

Definition bump_execute_callback (update : Update) (now : Z) : M unit :=
  reply "query.answer()" [] ;;
  let user_id := effective_user_id update in
  context_user_data <- get_user_data user_id ;;
  match bump_listing_id context_user_data with
  | None => reply "Error: Could not find listing data for bump." []
  | Some listing_id =>
    listing <- Db.get_active_listing user_id ;;
    match listing with
    | None => reply "Error: Active listing not found or mismatch." []
    | Some listing =>
      if negb (Listing.id listing =? listing_id) then
        reply "Error: Active listing not found or mismatch." []
      else
        (* 1. Delete the old message *)
        try_except
          (Bot.delete_message (Listing.message_id listing))
          (fun e => print "Error deleting old listing message {} during bump: {}"
                          [Listing.message_id listing]) ;;
        (* 2. Calculate new expiry time *)
        let now := datetime_now now in
        choice <-
          (if (data update =? "bump_keep")%string then
             let time_remaining_seconds :=
               match bump_time_remaining context_user_data with
               | Some x => x
               | None => 0
               end in
             ret (Some (dt_add now (timedelta_seconds time_remaining_seconds),
                        int_of_float (floordiv time_remaining_seconds 3600)))
           else if startswith (data update) "bump_reset_" then
             duration_hours <- lift (int_of_str (split_last "_" (data update) "")) ;;
             ret (Some (dt_add now (timedelta_hours duration_hours), duration_hours))
           else ret None) ;;
        match choice with
        | None => reply "Invalid bump option selected." []
        | Some (new_expires_at, duration_hours) =>
            profile <- Db.get_profile user_id ;;
            if no_profile profile then
              reply "Error: Profile not found for re-post." []
            else
              let profile := match profile with Some p => p | None => [] end in
              (* 3. Post the new message *)
              message_text <-
                lift (generate_listing_message profile (isoformat new_expires_at)) ;;
              sent_message <- Bot.send_message message_text ;;
              (* 4. Update the active listing record *)
              Db.update_active_listing listing_id sent_message
                                       (isoformat new_expires_at) duration_hours
                                       (isoformat now) ;;
              (* 5. Trigger list update *)
              update_available_lists_now ;;
              reply "✅ Listing successfully bumped! New expiry time: {}."
                    [match new_expires_at with Aware t => t | Naive t => t end] ;;
              (* Clean up context data *)
              put_user_data user_id empty_user_data
        end
    end
  end.

End Handlers.

End Admin.

(* ================================================================== *)
(** * handlers/member.py                                               *)
(* ================================================================== *)

Module Member.

(** [member_available_command]: the loop over [user_ids] is the one of
    [get_profiles_for_listings], written out in the handler; the new list is
    sent to the chat of the update, which is the group chat. *)
Definition member_available_command (cfg : Constants.t) (update : Admin.Update)
  : M unit :=
  (* Only respond in the designated group chat *)
  if negb (Admin.effective_chat_id update =? Constants.GROUP_CHAT_ID cfg) then ret tt
  else
    (* 1. Get all active listings *)
    active_listings <- Db.get_all_active_listings ;;
    (* 2. Fetch profiles for all active listings *)
    let user_ids := map Listing.user_id active_listings in
    profiles <- Scheduler.get_profiles_loop user_ids [] ;;
    (* 3. Generate the new list content *)
    list_content <- lift (Formatting.generate_list_message
                            active_listings profiles (Admin.effective_chat_id update)) ;;
    (* 4. Get the old chat list message ID *)
    old_chat_msg_data <- Db.get_list_message Constants.LIST_TYPE_CHAT ;;
    (* 5. Delete the old chat list message (to avoid clutter) *)
    match old_chat_msg_data with
    | Some message_id =>
        try_except
          (Bot.delete_message message_id)
          (fun e => print "Error deleting old chat list message {}: {}" [message_id])
    | None => ret tt
    end ;;
    (* 6. Post the new chat list message *)
    try_except
      (new_message <- Bot.send_message list_content ;;
       (* 7. Update the list_messages table with the new message ID *)
       Db.save_list_message Constants.LIST_TYPE_CHAT new_message ;;
       ret tt)
      (fun e => print "Error posting new chat list message: {}" []).

End Member.

(* ================================================================== *)
(** * Observations on runs and reference definitions                   *)
(* ================================================================== *)

Module Obs.

(** The events a run from [w] to [w'] added to the trace. *)
Definition events_since (w w' : World) : list event :=
  skipn (List.length (trace w)) (trace w').

Definition is_bot_event (e : event) : bool :=
  match e with
  | EvBot _ _ => true
  | _ => false
  end.

(** The Channel Gateway calls among some events. *)
Definition bot_events (evs : list event) : list event := filter is_bot_event evs.





Definition is_print (fmt : string) (e : event) : bool :=
  match e with
  | EvPrint f _ => (f =? fmt)%string
  | _ => false
  end.

Definition is_reply (fmt : string) (e : event) : bool :=
  match e with
  | EvReply f _ => (f =? fmt)%string
  | _ => false
  end.

Definition count_print (fmt : string) (evs : list event) : nat :=
  List.length (filter (is_print fmt) evs).



(** ** The summary, as a specification *)

Definition summary_header (count : nat) : string :=
  "*AVAILABLE NOW (" ++ str (Z.of_nat count) ++ " available)*" ++ newline ++ newline.

(** [enumerate(l)], counting from [i]. *)
Fixpoint enumerate {A : Type} (i : Z) (l : list A) : list (Z * A) :=
  match l with
  | [] => []
  | x :: rest => (i, x) :: enumerate (i + 1) rest
  end.

Definition has_profile (profiles : list (Z * dict)) (l : Listing.t) : bool :=
  negb (no_profile (profiles_get profiles (Listing.user_id l))).

(** The name of the owner of [l] can be escaped: it is a text, or a falsy
    value, or missing. *)
Definition textual_name (profiles : list (Z * dict)) (l : Listing.t) : bool :=
  match dict_get (match profiles_get profiles (Listing.user_id l) with
                  | Some p => p
                  | None => []
                  end) "name_subject" (PyStr "") with
  | PyStr _ => true
  | v => negb (truthy v)
  end.

(** The line of the listing at position [i], numbered [i + 1]. *)
Definition summary_line (profiles : list (Z * dict)) (chat_id : Z)
           (il : Z * Listing.t) : result string :=
  let (i, l) := il in
  let profile := match profiles_get profiles (Listing.user_id l) with
                 | Some p => p
                 | None => []
                 end in
  match Formatting.escape_markdown_v2
          (dict_get profile "name_subject"
                    (PyStr ("Model " ++ str (Listing.user_id l)))) with
  | Raise e => Raise e
  | Ok name =>
      Ok (str (i + 1) ++ "\. " ++ name ++ " "
            ++ (if truthy (dict_get profile "allow_comments" (PyBool false))
                then "💬" else "")
            ++ " [View Post](https://t.me/c/" ++ replace "-100" "" (str chat_id)
            ++ "/" ++ str (Listing.message_id l) ++ ")" ++ newline)
  end.

(** The lines one after the other, up to the first that cannot be made. *)
Fixpoint join_lines (lines : list (result string)) : result string :=
  match lines with
  | [] => Ok ""
  | Raise e :: _ => Raise e
  | Ok x :: rest =>
      match join_lines rest with
      | Ok y => Ok (x ++ y)
      | Raise e => Raise e
      end
  end.

(** The body: the listings are numbered by their position in the whole
    list, then those without a profile are left out. *)
Definition summary_body (profiles : list (Z * dict)) (chat_id : Z)
           (active_listings : list Listing.t) : result string :=
  join_lines
    (map (summary_line profiles chat_id)
         (filter (fun il => has_profile profiles (snd il))
                 (enumerate 0 active_listings))).

(** The line that opens every run of [update_available_lists], and the
    line printed for every listing the sweep expires. *)
Definition sync_mark : string := "Running update_available_lists job...".
Definition expired_mark : string := "Listing {} for user {} has expired.".

(** How often the Broadcast Synchronizer was invoked, and how many
    listings were expired, according to some events. *)
Definition sync_invocations (evs : list event) : nat := count_print sync_mark evs.
Definition expirations (evs : list event) : nat := count_print expired_mark evs.

(** An event that is neither of the two marks. *)
Definition unmarked (e : event) : bool :=
  negb (is_print sync_mark e) && negb (is_print expired_mark e).

(** An event other than the mark of the synchronizer. *)
Definition not_sync (e : event) : bool := negb (is_print sync_mark e).

(** [m] only adds events, all of them satisfying [q]. *)
Definition emits_only (q : event -> bool) {A : Type} (m : M A) : Prop :=
  forall w, exists evs,
    trace (snd (m w)) = (trace w ++ evs)%list /\ forallb q evs = true.

(** The expiry of a listing is an aware timestamp, as the handlers write
    it. *)
Definition aware_expiry (l : Listing.t) : bool :=
  match Listing.expires_at l with
  | IsoAware _ => true
  | _ => false
  end.

(** [expires_at <= now] for an aware expiry. *)
Definition is_expired (now : Z) (l : Listing.t) : bool :=
  match Listing.expires_at l with
  | IsoAware t => t <=? now
  | _ => false
  end.

(** None of the next [n] remote calls fails. *)
Definition no_fault_in (n : nat) (w : World) : bool :=
  forallb negb (firstn n (faults w)).

(** Is there a row with this id in [active_listings]? *)
Definition has_listing (w : World) (listing_id : Z) : bool :=
  existsb (fun l => Listing.id l =? listing_id) (active_listings w).

(** The id of the message a gateway send returned, and the message id a
    write of a listing record carries. *)
Definition sent_id (e : event) : option Z :=
  match e with
  | EvBot (SendMessage _) r => r
  | EvBot (SendMediaGroup _) r => r
  | _ => None
  end.

Definition written_id (e : event) : option Z :=
  match e with
  | EvDb (InsertListing _ m) _ => Some m
  | EvDb (UpdateListing _ m) _ => Some m
  | _ => None
  end.

(** Going through the events in order: does every write of a listing
    record carry the id of a message that a send returned before it?
    [sent] holds the ids returned so far. *)
Fixpoint writes_follow_sends (sent : list Z) (evs : list event) : bool :=
  match evs with
  | [] => true
  | e :: rest =>
      match written_id e with
      | Some m => existsb (Z.eqb m) sent && writes_follow_sends sent rest
      | None =>
          match sent_id e with
          | Some m => writes_follow_sends (m :: sent) rest
          | None => writes_follow_sends sent rest
          end
      end
  end.

(** A send that returned [message_id] is among the events. *)
Definition confirmed_sent (message_id : Z) (evs : list event) : bool :=
  existsb (fun e => match sent_id e with
                    | Some m => m =? message_id
                    | None => false
                    end) evs.

(** No send went through. *)
Definition nothing_sent (evs : list event) : bool :=
  forallb (fun e => match sent_id e with
                    | Some _ => false
                    | None => true
                    end) evs.

(** The update of a listing record went through. *)
Definition record_updated (evs : list event) : bool :=
  existsb (fun e => match e with
                    | EvDb (UpdateListing _ _) true => true
                    | _ => false
                    end) evs.

(** The prompt of /bump for the choice between keeping and resetting. *)
Definition bump_prompt : string :=
  "You have {}h {}m remaining on your availability. Do you want to keep the remaining time or reset the timer?".

(** The replies of the bump and of the /available command. *)
Definition cooldown_reply : string := "❌ Please wait {}m {}s before bumping again.".
Definition bumped_reply : string :=
  "✅ Listing successfully bumped! New expiry time: {}.".

(** [w'] has the tables, the chat and the user data of [w]. *)
Definition same_state (w w' : World) : Prop :=
  profiles w' = profiles w /\ active_listings w' = active_listings w
  /\ list_messages w' = list_messages w /\ next_listing_id w' = next_listing_id w
  /\ chat w' = chat w /\ next_message_id w' = next_message_id w
  /\ user_data w' = user_data w.

(** ** The cooldown policy, as the specification words it *)

Record decision : Type := mkDecision {
  allowed : bool;
  wait_remaining : timedelta
}.

Definition can_bump (last_bump_at now cooldown : Z) : decision :=
  mkDecision (now - last_bump_at >=? cooldown)
             (Z.max 0 (cooldown - (now - last_bump_at))).

(** ** The tables, as the reads of [db.py] see them *)

(** Does the next remote call fail? *)
Definition next_fails (w : World) : bool :=
  match faults w with
  | f :: _ => f
  | [] => false
  end.

(** The first row of [profiles] for a user, of [active_listings] for an
    owner, and the message id of the first row of [list_messages] for a
    type. *)
Definition table_profile (w : World) (user_id : Z) : option dict :=
  match filter (fun r => fst r =? user_id) (profiles w) with
  | r :: _ => Some (snd r)
  | [] => None
  end.

Definition table_listing (w : World) (user_id : Z) : option Listing.t :=
  match filter (fun l => Listing.user_id l =? user_id) (active_listings w) with
  | l :: _ => Some l
  | [] => None
  end.

Definition table_pointer (w : World) (list_type : string) : option Z :=
  match filter (fun r => (fst r =? list_type)%string) (list_messages w) with
  | r :: _ => Some (snd r)
  | [] => None
  end.

(** An event that is not a call of the Channel Gateway. *)
Definition not_bot (e : event) : bool := negb (is_bot_event e).

(** [w'] has the tables and the user data of [w]; the chat may differ. *)
Definition same_tables (w w' : World) : Prop :=
  profiles w' = profiles w /\ active_listings w' = active_listings w
  /\ list_messages w' = list_messages w /\ next_listing_id w' = next_listing_id w
  /\ user_data w' = user_data w.



(** [w'] has the profiles, the listings and the user data of [w]; the
    chat and the list messages may differ. *)
Definition same_records (w w' : World) : Prop :=
  profiles w' = profiles w /\ active_listings w' = active_listings w
  /\ next_listing_id w' = next_listing_id w /\ user_data w' = user_data w.

(** An event that is not the edit of a message. *)
Definition not_edit (e : event) : bool :=
  match e with
  | EvBot (EditMessageText _ _) _ => false
  | _ => true
  end.

(** The name of a profile can be escaped: a text, a falsy value, or no
    name. *)
Definition textual_profile (p : dict) : bool :=
  match dict_get p "name_subject" (PyStr "") with
  | PyStr _ => true
  | v => negb (truthy v)
  end.

End Obs.

(* ================================================================== *)
(** * Concrete states                                                  *)
(* ================================================================== *)

Module Scenario.

(** One second, minute and hour, in microseconds. *)
Definition second : Z := 1000000.
Definition minute : Z := 60 * second.
Definition hour : Z := 60 * minute.

(** The owners [U1] and [U2], both approved, and the group chat. *)
Definition U1 : Z := 10.
Definition U2 : Z := 20.
Definition group : Z := -1001234.
Definition cfg : Constants.t := Constants.of_env [U1; U2] group.

(** A rendering collaborator that always succeeds. *)
Definition render : Formatting.renderer := fun _ _ => Ok "listing".

Definition profile_U1 : dict := [("name_subject", PyStr "U1")].
Definition profile_U2 : dict := [("name_subject", PyStr "U2")].

(** [U1]'s listing: bumped at [T0 = 0], expiring two hours later, posted as
    message 100. *)
Definition listing_U1 : Listing.t :=
  Listing.mk 1 U1 100 (IsoAware (2 * hour)) 2 (IsoAware 0).

Definition listing_U2 : Listing.t :=
  Listing.mk 2 U2 200 (IsoAware (2 * hour)) 2 (IsoAware (5 * minute)).

(** The text of the pinned summary while [U1] is the only owner listed. *)
Definition pinned_text_U1 : string :=
  "*AVAILABLE NOW (1 available)*" ++ newline ++ newline
    ++ "1\. U1  [View Post](https://t.me/c/1234/100)" ++ newline.

(** [U1] holds the only listing; message 7 is the pinned summary. *)
Definition only_U1 : World :=
  mkWorld [(U1, profile_U1)] [listing_U1] [("pinned", 7)] 2
          [(7, pinned_text_U1); (100, "listing")] 101 [] [] [].

(** [U1] and [U2] both hold a listing and a profile. *)
Definition both : World :=
  mkWorld [(U1, profile_U1); (U2, profile_U2)] [listing_U1; listing_U2]
          [("pinned", 7)] 3
          [(7, "summary"); (100, "listing"); (200, "listing")] 201 [] [] [].

(** An update of [user] in the group chat carrying [data]. *)
Definition update (user : Z) (data : string) : Admin.Update :=
  Admin.mkUpdate user group data.

End Scenario.

(* ================================================================== *)
(** * Theorems                                                         *)
(* ================================================================== *)

(** ** Texts *)






Lemma string_app_assoc (a b c : string) : ((a ++ b) ++ c = a ++ (b ++ c))%string.
Proof. induction a as [|x a IH]; cbn; [reflexivity | now rewrite IH]. Qed.

Lemma string_app_nil_r (a : string) : (a ++ "" = a)%string.
Proof. induction a as [|x a IH]; cbn; [reflexivity | now rewrite IH]. Qed.

(** ** format_time_remaining *)



(** ** generate_list_message *)

Lemma generate_list_message_loop_lines (profiles : list (Z * dict)) (chat_id : Z)
      (ls : list Listing.t) :
  forall (i : Z) (message : string),
    Formatting.generate_list_message_loop profiles chat_id i ls message
    = match Obs.join_lines
              (map (Obs.summary_line profiles chat_id)
                   (filter (fun il => Obs.has_profile profiles (snd il))
                           (Obs.enumerate i ls))) with
      | Ok body => Ok (message ++ body)
      | Raise e => Raise e
      end.
Proof.
  induction ls as [|l ls IH]; intros i message.
  - cbn. now rewrite string_app_nil_r.
  - cbn [Formatting.generate_list_message_loop Obs.enumerate filter snd].
    unfold Obs.has_profile at 1.
    destruct (no_profile (profiles_get profiles (Listing.user_id l))) eqn:Enp.
    + cbn [negb]. apply IH.
    + cbn [negb map Obs.join_lines]. unfold Obs.summary_line at 1.
      destruct (Formatting.escape_markdown_v2 _) as [name|e]; [|reflexivity].
      rewrite IH. unfold Formatting.list_entry.
      destruct (Obs.join_lines _) as [body|e]; [|reflexivity].
      f_equal. rewrite string_app_assoc.
      repeat (rewrite ?string_app_assoc; f_equal).
Qed.

Lemma summary_body_returns (profiles : list (Z * dict)) (chat_id : Z)
      (ls : list Listing.t) :
  (forall l, In l ls -> Obs.textual_name profiles l = true) ->
  forall i, exists body,
    Obs.join_lines
      (map (Obs.summary_line profiles chat_id)
           (filter (fun il => Obs.has_profile profiles (snd il)) (Obs.enumerate i ls)))
    = Ok body.
Proof.
  induction ls as [|l ls IH]; intros Hnames i; [now exists ""|].
  cbn [Obs.enumerate filter snd].
  destruct (IH (fun x Hx => Hnames x (or_intror Hx)) (i + 1)) as (rest & Hrest).
  destruct (Obs.has_profile profiles l); [|now exists rest].
  cbn [map Obs.join_lines]. rewrite Hrest.
  pose proof (Hnames l (or_introl eq_refl)) as Hname.
  unfold Obs.textual_name in Hname. unfold Obs.summary_line.
  set (profile := match profiles_get profiles (Listing.user_id l) with
                  | Some p => p
                  | None => []
                  end) in *.
  assert (Hesc : exists name,
             Formatting.escape_markdown_v2
               (dict_get profile "name_subject"
                         (PyStr ("Model " ++ str (Listing.user_id l)))) = Ok name).
  { unfold dict_get in *. unfold Formatting.escape_markdown_v2.
    destruct (dict_lookup profile "name_subject") as [v|].
    - destruct v; cbn [truthy negb] in *;
        try (rewrite Hname; cbn [negb]; eexists; reflexivity);
        try (eexists; reflexivity).
      destruct (negb (negb (s =? "")%string)); eexists; reflexivity.
    - destruct (negb (truthy _)); eexists; reflexivity. }
  destruct Hesc as (name & ->). eexists. reflexivity.
Qed.

(** C10: the header of the summary counts every active listing, with or
    without a profile, while the body holds a line only for the listings
    whose owner has a profile, each numbered by its place in the whole list
    (place [i], counted from 0, is numbered [i + 1]): leaving listings out
    leaves gaps in the numbers.  The summary is returned whenever the names
    of the owners can be escaped. *)
Theorem generate_list_message_header_and_numbering
        (active_listings : list Listing.t) (profiles : list (Z * dict)) (chat_id : Z) :
  Formatting.generate_list_message active_listings profiles chat_id
  = match active_listings with
    | [] =>
        Ok (Obs.summary_header 0
              ++ "No models are currently available\. Check back soon\!")
    | _ :: _ =>
        match Obs.summary_body profiles chat_id active_listings with
        | Ok body => Ok (Obs.summary_header (List.length active_listings) ++ body)
        | Raise e => Raise e
        end
    end
  /\ ((forall l, In l active_listings -> Obs.textual_name profiles l = true) ->
      exists body,
        Formatting.generate_list_message active_listings profiles chat_id
        = Ok (Obs.summary_header (List.length active_listings) ++ body)).
Proof.
  assert (Heq : Formatting.generate_list_message active_listings profiles chat_id
                = match active_listings with
                  | [] =>
                      Ok (Obs.summary_header 0
                            ++ "No models are currently available\. Check back soon\!")
                  | _ :: _ =>
                      match Obs.summary_body profiles chat_id active_listings with
                      | Ok body =>
                          Ok (Obs.summary_header (List.length active_listings) ++ body)
                      | Raise e => Raise e
                      end
                  end).
  { unfold Formatting.generate_list_message.
    destruct active_listings as [|l ls]; [reflexivity|].
    destruct (Z.of_nat (List.length (l :: ls)) =? 0) eqn:E.
    - apply Z.eqb_eq in E. cbn [List.length] in E. lia.
    - rewrite generate_list_message_loop_lines. unfold Obs.summary_body.
      destruct (Obs.join_lines _) as [body|e]; reflexivity. }
  split; [exact Heq|].
  intros Hnames. rewrite Heq.
  destruct active_listings as [|l ls]; [eexists; reflexivity|].
  unfold Obs.summary_body.
  destruct (summary_body_returns profiles chat_id (l :: ls) Hnames 0) as (body & ->).
  now exists body.
Qed.

(** A listing without a profile leaves a gap: the only line is numbered 2. *)
Example generate_list_message_gap :
  Formatting.generate_list_message
    [Listing.mk 1 10 100 (IsoAware 5) 2 (IsoAware 1);
     Listing.mk 2 20 200 (IsoAware 5) 2 (IsoAware 2)]
    [(20, [("name_subject", PyStr "Ann")])] (-1001234)
  = Ok ("*AVAILABLE NOW (2 available)*" ++ newline ++ newline
          ++ "2\. Ann  [View Post](https://t.me/c/1234/200)" ++ newline).
Proof. reflexivity. Qed.

(** * Running the monad *)

(** Unfolds the monad, the primitives of the world, the gateway and the
    store, and computes what can be. *)
Ltac run :=
  cbv beta iota zeta delta
      [bind ret raise try_except lift emit print reply next_fault get_world
       set_active_listings set_next_listing_id set_chat set_user_data
       Bot.delete_message Bot.send_message Bot.send_media_group Bot.edit_message_text
       Db.execute Db.get_profile Db.get_active_listing Db.get_all_active_listings
       Db.save_active_listing Db.update_active_listing Db.delete_active_listing
       Db.get_list_message
       profiles active_listings list_messages next_listing_id chat next_message_id
       user_data faults trace];
  cbn [negb orb andb fst snd].

Ltac run_in H :=
  cbv beta iota zeta delta
      [bind ret raise try_except lift emit print reply next_fault get_world
       set_active_listings set_next_listing_id set_chat set_user_data
       Bot.delete_message Bot.send_message Bot.send_media_group Bot.edit_message_text
       Db.execute Db.get_profile Db.get_active_listing Db.get_all_active_listings
       Db.save_active_listing Db.update_active_listing Db.delete_active_listing
       Db.get_list_message
       profiles active_listings list_messages next_listing_id chat next_message_id
       user_data faults trace] in H;
  cbn [negb orb andb fst snd] in H.

(** Splits on the innermost scrutinee of a [match] of the goal. *)
Ltac break_match :=
  match goal with
  | |- context [match ?x with _ => _ end] =>
      lazymatch x with
      | context [match _ with _ => _ end] => fail
      | _ => destruct x eqn:?
      end
  end.

(** ** The gateway and the store *)

Lemma has_message_remove (c : list (Z * string)) (message_id : Z) :
  Bot.has_message (Bot.remove_message c message_id) message_id = false.
Proof.
  unfold Bot.has_message, Bot.remove_message.
  induction c as [|m c IH]; [reflexivity|].
  cbn [filter]. destruct (fst m =? message_id) eqn:E; cbn [negb existsb].
  - exact IH.
  - rewrite E. exact IH.
Qed.

Lemma remove_absent_message (c : list (Z * string)) (message_id : Z) :
  Bot.has_message c message_id = false -> Bot.remove_message c message_id = c.
Proof.
  unfold Bot.has_message, Bot.remove_message.
  induction c as [|m c IH]; [reflexivity|].
  cbn [existsb filter]. intros H. apply orb_false_iff in H as [H1 H2].
  rewrite H1. cbn [negb]. now rewrite IH.
Qed.

Lemma existsb_filter_negb {A : Type} (p : A -> bool) (l : list A) :
  existsb p (filter (fun x => negb (p x)) l) = false.
Proof.
  induction l as [|x l IH]; [reflexivity|].
  cbn [filter]. destruct (p x) eqn:E; cbn [negb existsb]; [exact IH|].
  now rewrite E.
Qed.

Lemma filter_negb_absent {A : Type} (p : A -> bool) (l : list A) :
  existsb p l = false -> filter (fun x => negb (p x)) l = l.
Proof.
  induction l as [|x l IH]; [reflexivity|].
  cbn [existsb filter]. intros H. apply orb_false_iff in H as [H1 H2].
  rewrite H1. cbn [negb]. now rewrite IH.
Qed.

(** ** Expire *)

(** Expire never raises, whatever the state and the faults. *)
Lemma expire_never_raises (l : Listing.t) (w : World) :
  fst (Scheduler.expire l w) = Ok tt.
Proof.
  destruct w as [ps als lms nid ch nmid ud fl tr].
  unfold Scheduler.expire. run.
  repeat (break_match; run); reflexivity.
Qed.

(** Puts the boolean facts collected on the way in a usable form. *)
Ltac tidy :=
  cbn [orb negb andb] in *;
  repeat match goal with
         | H : ?b || _ = _ |- _ => is_var b; destruct b; cbn [orb negb] in H
         | H : negb _ = true |- _ => apply negb_true_iff in H
         | H : negb _ = false |- _ => apply negb_false_iff in H
         end;
  try discriminate.

(** Expiring a listing whose message or record is already gone leaves the
    chat, respectively the table, as it is; the other tables are never
    touched. *)
Lemma expire_absent (l : Listing.t) (w : World) :
  (Bot.has_message (chat w) (Listing.message_id l) = false ->
   chat (snd (Scheduler.expire l w)) = chat w)
  /\ (Obs.has_listing w (Listing.id l) = false ->
      active_listings (snd (Scheduler.expire l w)) = active_listings w)
  /\ profiles (snd (Scheduler.expire l w)) = profiles w
  /\ list_messages (snd (Scheduler.expire l w)) = list_messages w
  /\ user_data (snd (Scheduler.expire l w)) = user_data w.
Proof.
  destruct w as [ps als lms nid ch nmid ud fl tr].
  unfold Scheduler.expire, Obs.has_listing. run.
  repeat (break_match; run); tidy.
  all: repeat split; try reflexivity; intros Habs.
  all: try congruence.
  all: apply filter_negb_absent with (p := fun l0 => Listing.id l0 =? Listing.id l);
    assumption.
Qed.

(** When its two remote calls go through, Expire leaves neither the message
    nor the record behind. *)
Lemma expire_removes (l : Listing.t) (w : World) :
  Obs.no_fault_in 2 w = true ->
  Bot.has_message (chat (snd (Scheduler.expire l w))) (Listing.message_id l) = false
  /\ Obs.has_listing (snd (Scheduler.expire l w)) (Listing.id l) = false.
Proof.
  destruct w as [ps als lms nid ch nmid ud fl tr].
  unfold Scheduler.expire, Obs.has_listing, Obs.no_fault_in. run.
  intros Hf.
  repeat (break_match; run); subst; cbn [firstn forallb] in Hf; tidy.
  all: split.
  all: try apply has_message_remove.
  all: try (apply existsb_filter_negb with (p := fun l0 => Listing.id l0 =? Listing.id l)).
  all: try assumption.
Qed.

(** C8: Expire is idempotent.  Neither the first nor the second call on a
    listing raises, whatever the state and whichever remote calls fail;
    deleting a message or a record that is already gone is not an error and
    changes nothing; and after a first call whose two remote calls went
    through, a second call leaves the chat and every table as they are. *)
Theorem expire_idempotent (l : Listing.t) (w : World) :
  let w1 := snd (Scheduler.expire l w) in
  let w2 := snd (Scheduler.expire l w1) in
  fst (Scheduler.expire l w) = Ok tt
  /\ fst (Scheduler.expire l w1) = Ok tt
  /\ (Bot.has_message (chat w1) (Listing.message_id l) = false -> chat w2 = chat w1)
  /\ (Obs.has_listing w1 (Listing.id l) = false ->
      active_listings w2 = active_listings w1)
  /\ (Obs.no_fault_in 2 w = true ->
      chat w2 = chat w1 /\ active_listings w2 = active_listings w1
      /\ profiles w2 = profiles w1 /\ list_messages w2 = list_messages w1
      /\ user_data w2 = user_data w1).
Proof.
  intros w1 w2.
  destruct (expire_absent l w1) as (Hc & Hl & Hp & Hm & Hu).
  repeat split; try apply expire_never_raises; try assumption.
  all: destruct (expire_removes l w H) as [Hc' Hl']; auto.
Qed.

(** * Events of a run *)

Lemma skipn_length_app {A : Type} (l evs : list A) :
  skipn (List.length l) (l ++ evs) = evs.
Proof. induction l as [|x l IH]; [reflexivity | exact IH]. Qed.

Lemma events_since_app (w w' : World) (evs : list event) :
  trace w' = (trace w ++ evs)%list -> Obs.events_since w w' = evs.
Proof. intros E. unfold Obs.events_since. rewrite E. apply skipn_length_app. Qed.

(** ** The countdown refresh *)

(** As soon as a listing has a profile, the pass stops on the lookup of
    [db.generate_listing_message]: the exception is raised outside the
    [try], so the rest of the listings is not reached. *)
Lemma update_countdown_loop_aborts (now : Z) (l : Listing.t) (rest : list Listing.t)
      (w w1 : World) (profile : option dict) :
  Db.get_profile (Listing.user_id l) w = (Ok profile, w1) ->
  no_profile profile = false ->
  Scheduler.update_countdown_loop now (l :: rest) w = (Raise AttributeError, w1).
Proof.
  intros Hget Hp. cbn [Scheduler.update_countdown_loop].
  unfold bind at 1. rewrite Hget, Hp.
  unfold bind, lift.
  replace (Db.getattr "generate_listing_message") with (@Raise string AttributeError)
    by reflexivity.
  reflexivity.
Qed.

(** C7 fails on the code: with two listings whose owners both have a
    profile, the pass raises [AttributeError] at the first listing it takes
    (the store has no [generate_listing_message]); no message is edited and
    the other listing is not even looked up. *)
Theorem update_countdown_timers_stops_at_first_listing :
  let run := Scheduler.update_countdown_timers (10 * Scenario.minute) Scenario.both in
  fst run = Raise AttributeError
  /\ Obs.events_since Scenario.both (snd run)
     = [EvPrint "Running update_countdown_timers job..." [];
        EvDb SelectAllListings true;
        EvDb (SelectProfile Scenario.U2) true]
  /\ Obs.bot_events (Obs.events_since Scenario.both (snd run)) = []
  /\ chat (snd run) = chat Scenario.both.
Proof. vm_compute. repeat split; reflexivity. Qed.

(** ** The expiry sweep on the last listing *)


(** * Which events a computation adds *)

Section EmitsOnly.

Variable q : event -> bool.

Lemma emits_only_ret {A : Type} (a : A) : Obs.emits_only q (ret a).
Proof. intros w. exists []. split; [symmetry; apply app_nil_r | reflexivity]. Qed.

Lemma emits_only_raise {A : Type} (e : exn) : Obs.emits_only q (@raise A e).
Proof. intros w. exists []. split; [symmetry; apply app_nil_r | reflexivity]. Qed.

Lemma emits_only_lift {A : Type} (r : result A) : Obs.emits_only q (lift r).
Proof. intros w. exists []. split; [symmetry; apply app_nil_r | reflexivity]. Qed.

Lemma emits_only_emit (e : event) : q e = true -> Obs.emits_only q (emit e).
Proof.
  intros H w. exists [e]. split; [reflexivity | cbn; now rewrite H].
Qed.

Lemma emits_only_bind {A B : Type} (m : M A) (f : A -> M B) :
  Obs.emits_only q m -> (forall a, Obs.emits_only q (f a)) ->
  Obs.emits_only q (bind m f).
Proof.
  intros Hm Hf w. unfold bind.
  destruct (Hm w) as (evs1 & E1 & Q1).
  destruct (m w) as [[a|e] w1]; cbn [snd] in *.
  - destruct (Hf a w1) as (evs2 & E2 & Q2).
    exists (evs1 ++ evs2)%list. split.
    + now rewrite E2, E1, app_assoc.
    + now rewrite forallb_app, Q1, Q2.
  - exists evs1. now split.
Qed.

Lemma emits_only_try {A : Type} (m : M A) (h : exn -> M A) :
  Obs.emits_only q m -> (forall e, Obs.emits_only q (h e)) ->
  Obs.emits_only q (try_except m h).
Proof.
  intros Hm Hh w. unfold try_except.
  destruct (Hm w) as (evs1 & E1 & Q1).
  destruct (m w) as [[a|e] w1]; cbn [snd] in *.
  - exists evs1. now split.
  - destruct (Hh e w1) as (evs2 & E2 & Q2).
    exists (evs1 ++ evs2)%list. split.
    + now rewrite E2, E1, app_assoc.
    + now rewrite forallb_app, Q1, Q2.
Qed.

(** A computation that leaves the trace alone. *)
Lemma emits_only_silent {A : Type} (m : M A) :
  (forall w, trace (snd (m w)) = trace w) -> Obs.emits_only q m.
Proof.
  intros H w. exists []. split; [rewrite H; symmetry; apply app_nil_r | reflexivity].
Qed.

End EmitsOnly.

Create HintDb emits.

(** Proves [emits_only q m] for a computation built from the primitives,
    when [q] holds of every event it can add. *)
Ltac emits :=
  repeat first
    [ apply emits_only_ret
    | apply emits_only_raise
    | apply emits_only_lift
    | apply emits_only_emit; reflexivity
    | match goal with
      | |- Obs.emits_only _ next_fault => idtac
      | |- Obs.emits_only _ get_world => idtac
      | |- Obs.emits_only _ (set_chat _ _) => idtac
      | |- Obs.emits_only _ (set_active_listings _) => idtac
      | |- Obs.emits_only _ (set_next_listing_id _) => idtac
      | |- Obs.emits_only _ (set_user_data _) => idtac
      end;
      apply emits_only_silent; intros [? ? ? ? ? ? ? fl ?];
      solve [reflexivity | destruct fl; reflexivity]
    | apply emits_only_bind; [|intros ?]
    | apply emits_only_try; [|intros ?]
    | match goal with
      | |- Obs.emits_only _ (if ?b then _ else _) => destruct b
      | |- Obs.emits_only _ (match ?x with _ => _ end) => destruct x
      end
    | progress unfold print, reply, Db.execute, Db.get_profile, Db.get_active_listing,
        Db.get_all_active_listings, Db.save_active_listing, Db.update_active_listing,
        Db.delete_active_listing, Db.get_list_message,
        Bot.delete_message, Bot.send_message, Bot.send_media_group,
        Bot.edit_message_text
    | solve [auto 1 with emits] ].

Lemma expire_not_sync (l : Listing.t) :
  Obs.emits_only Obs.not_sync (Scheduler.expire l).
Proof. unfold Scheduler.expire. emits. Qed.

Lemma count_print_app (fmt : string) (a b : list event) :
  Obs.count_print fmt (a ++ b) = (Obs.count_print fmt a + Obs.count_print fmt b)%nat.
Proof. unfold Obs.count_print. now rewrite filter_app, length_app. Qed.

Lemma unmarked_counts (evs : list event) :
  forallb Obs.unmarked evs = true ->
  Obs.sync_invocations evs = 0%nat /\ Obs.expirations evs = 0%nat
  /\ forallb Obs.not_sync evs = true.
Proof.
  unfold Obs.sync_invocations, Obs.expirations, Obs.count_print.
  induction evs as [|e evs IH]; [now repeat split|].
  cbn [forallb filter]. intros H. apply andb_true_iff in H as [He H].
  destruct (IH H) as (IH1 & IH2 & IH3).
  unfold Obs.unmarked in He. apply andb_true_iff in He as [He1 He2].
  apply negb_true_iff in He1, He2. rewrite He1, He2.
  unfold Obs.not_sync at 1. rewrite He1. now repeat split.
Qed.

Lemma not_sync_count (evs : list event) :
  forallb Obs.not_sync evs = true -> Obs.sync_invocations evs = 0%nat.
Proof.
  unfold Obs.sync_invocations, Obs.count_print.
  induction evs as [|e evs IH]; [reflexivity|].
  cbn [forallb filter]. intros H. apply andb_true_iff in H as [He H].
  unfold Obs.not_sync in He. apply negb_true_iff in He. rewrite He. now apply IH.
Qed.

(** A computation that starts by printing a line. *)
Lemma emits_after_print {A : Type} (q : event -> bool) (fmt : string) (args : list Z)
      (m : M A) :
  Obs.emits_only q m ->
  forall w, exists evs,
    trace (snd ((print fmt args ;; m) w)) = (trace w ++ EvPrint fmt args :: evs)%list
    /\ forallb q evs = true.
Proof.
  intros Hm w. unfold bind, print, emit.
  match goal with |- context [m ?w1] => destruct (Hm w1) as (evs & E & Q) end.
  exists evs. split; [|exact Q].
  rewrite E. cbn [trace]. now rewrite <- app_assoc.
Qed.

(** ** The expiry sweep *)

(** Expire prints its line, then nothing that is a mark. *)
Lemma expire_events (l : Listing.t) (w : World) :
  exists evs,
    trace (snd (Scheduler.expire l w))
    = (trace w ++ EvPrint Obs.expired_mark [Listing.id l; Listing.user_id l] :: evs)%list
    /\ forallb Obs.unmarked evs = true.
Proof. unfold Scheduler.expire. apply emits_after_print. emits. Qed.

Lemma get_profiles_loop_unmarked (user_ids : list Z) :
  forall profiles, Obs.emits_only Obs.unmarked (Scheduler.get_profiles_loop user_ids profiles).
Proof.
  induction user_ids as [|u us IH]; intros profiles; cbn [Scheduler.get_profiles_loop].
  - emits.
  - apply emits_only_bind; [emits|]. intros p. destruct (no_profile p); apply IH.
Qed.
#[local] Hint Resolve get_profiles_loop_unmarked : emits.

(** A run of the synchronizer prints its mark once, at its start. *)
Lemma update_available_lists_events (cfg : Constants.t) (w : World) :
  exists evs,
    trace (snd (Scheduler.update_available_lists cfg w))
    = (trace w ++ EvPrint Obs.sync_mark [] :: evs)%list
    /\ forallb Obs.unmarked evs = true.
Proof.
  unfold Scheduler.update_available_lists, Scheduler.get_profiles_for_listings.
  apply emits_after_print. emits.
Qed.

Lemma forallb_insert_desc (p : Listing.t -> bool) (l : Listing.t) (s : list Listing.t) :
  forallb p (Db.insert_desc l s) = p l && forallb p s.
Proof.
  induction s as [|x s IH]; cbn [Db.insert_desc forallb]; [reflexivity|].
  destruct (_ <=? _); cbn [forallb]; [reflexivity|].
  rewrite IH. now destruct (p l), (p x).
Qed.

Lemma forallb_order (p : Listing.t -> bool) (ls : list Listing.t) :
  forallb p (Db.order_by_last_bump_at_desc ls) = forallb p ls.
Proof.
  unfold Db.order_by_last_bump_at_desc.
  induction ls as [|l ls IH]; cbn [fold_right forallb]; [reflexivity|].
  now rewrite forallb_insert_desc, IH.
Qed.

Lemma count_insert_desc (p : Listing.t -> bool) (l : Listing.t) (s : list Listing.t) :
  List.length (filter p (Db.insert_desc l s)) = List.length (filter p (l :: s)).
Proof.
  induction s as [|x s IH]; cbn [Db.insert_desc]; [reflexivity|].
  destruct (_ <=? _); [reflexivity|].
  cbn [filter] in *. destruct (p x), (p l); cbn [List.length] in *; lia.
Qed.

Lemma count_order (p : Listing.t -> bool) (ls : list Listing.t) :
  List.length (filter p (Db.order_by_last_bump_at_desc ls)) = List.length (filter p ls).
Proof.
  unfold Db.order_by_last_bump_at_desc.
  induction ls as [|l ls IH]; cbn [fold_right]; [reflexivity|].
  rewrite count_insert_desc. cbn [filter]. destruct (p l); cbn [List.length]; lia.
Qed.

(** The loop of the sweep over listings with aware expiries: it completes,
    its flag tells whether a listing was expired, it prints one line per
    expired listing and never the mark of the synchronizer. *)
Lemma cleanup_loop_events (now : Z) (ls : list Listing.t) :
  forallb Obs.aware_expiry ls = true ->
  forall (flag : bool) (w : World),
  exists evs w',
    Scheduler.cleanup_loop (Aware now) ls flag w
    = (Ok (flag || existsb (Obs.is_expired now) ls), w')
    /\ trace w' = (trace w ++ evs)%list
    /\ forallb Obs.not_sync evs = true
    /\ Obs.expirations evs = List.length (filter (Obs.is_expired now) ls).
Proof.
  induction ls as [|l ls IH]; intros Haware flag w.
  - exists [], w. cbn. rewrite orb_false_r, app_nil_r. now repeat split.
  - cbn [forallb] in Haware. apply andb_true_iff in Haware as [Hl Hls].
    cbn [Scheduler.cleanup_loop existsb filter].
    unfold Obs.aware_expiry in Hl. unfold Obs.is_expired at 1 3.
    destruct (Listing.expires_at l) as [t| |]; try discriminate.
    unfold bind at 1 2, lift. cbn [fromisoformat dt_le].
    destruct (t <=? now).
    + unfold bind at 1.
      pose proof (expire_never_raises l w) as Hok.
      destruct (expire_events l w) as (evs1 & E1 & Q1).
      destruct (Scheduler.expire l w) as [r w1]. cbn [fst snd] in *. subst r.
      destruct (IH Hls true w1) as (evs2 & w2 & E2 & T2 & Q2 & N2).
      exists (EvPrint Obs.expired_mark [Listing.id l; Listing.user_id l] :: evs1 ++ evs2)%list, w2.
      destruct (unmarked_counts evs1 Q1) as (S1 & X1 & NS1).
      split; [rewrite E2; now rewrite orb_true_r|].
      split; [rewrite T2, E1, <- app_assoc; reflexivity|].
      split.
      * cbn [forallb]. rewrite forallb_app, NS1, Q2. reflexivity.
      * unfold Obs.expirations in *.
        change (EvPrint Obs.expired_mark [Listing.id l; Listing.user_id l] :: evs1 ++ evs2)%list
          with ([EvPrint Obs.expired_mark [Listing.id l; Listing.user_id l]] ++ evs1 ++ evs2)%list.
        rewrite !count_print_app, X1, N2. reflexivity.
    + destruct (IH Hls flag w) as (evs2 & w2 & E2 & T2 & Q2 & N2).
      exists evs2, w2. rewrite orb_false_l. now repeat split.
Qed.

(** What precedes the loop: the line of the job and the fetch. *)
Lemma cleanup_fetch (w : World) :
  exists ls w1 evs,
    (print "Running cleanup_expired_listings job..." [] ;; Db.get_all_active_listings) w
    = (Ok ls, w1)
    /\ trace w1 = (trace w ++ evs)%list
    /\ forallb Obs.unmarked evs = true
    /\ (forall p, forallb p (active_listings w) = true -> forallb p ls = true)
    /\ (forall p, Obs.no_fault_in 1 w = true ->
                  List.length (filter p ls) = List.length (filter p (active_listings w))).
Proof.
  destruct w as [ps als lms nid ch nmid ud fl tr]. unfold Obs.no_fault_in. run.
  destruct fl as [|[|] fl]; run.
  - do 3 eexists. split; [reflexivity|]. split; [rewrite <- app_assoc; reflexivity|].
    split; [reflexivity|]. split; intros p H; [now rewrite forallb_order|apply count_order].
  - do 3 eexists. split; [reflexivity|]. split; [rewrite <- !app_assoc; reflexivity|].
    split; [reflexivity|]. split; intros p H; [reflexivity|discriminate].
  - do 3 eexists. split; [reflexivity|]. split; [rewrite <- app_assoc; reflexivity|].
    split; [reflexivity|]. split; intros p H; [now rewrite forallb_order|apply count_order].
Qed.

Lemma bind_assoc {A B C : Type} (m : M A) (f : A -> M B) (g : B -> M C) (w : World) :
  bind (bind m f) g w = bind m (fun a => bind (f a) g) w.
Proof. unfold bind. now destruct (m w) as [[a|e] w1]. Qed.

(** C4: in a pass of the expiry sweep over listings whose expiries are the
    aware timestamps the handlers write, the Broadcast Synchronizer is
    invoked once if at least one listing was expired and not at all
    otherwise, whatever remote calls fail; the invocation comes after every
    expiry of the pass; and when the fetch goes through, the listings
    expired are those of the store with [expires_at <= now]. *)
Theorem sweep_syncs_once (cfg : Constants.t) (now : Z) (w : World) :
  forallb Obs.aware_expiry (active_listings w) = true ->
  let w' := snd (Scheduler.cleanup_expired_listings cfg now w) in
  let evs := Obs.events_since w w' in
  Obs.sync_invocations evs = (if (Obs.expirations evs =? 0)%nat then 0 else 1)%nat
  /\ (Obs.no_fault_in 1 w = true ->
      Obs.expirations evs
      = List.length (filter (Obs.is_expired now) (active_listings w)))
  /\ exists pre post,
       evs = (pre ++ post)%list
       /\ Obs.sync_invocations pre = 0%nat
       /\ Obs.expirations pre = Obs.expirations evs
       /\ Obs.expirations post = 0%nat
       /\ Obs.sync_invocations post = Obs.sync_invocations evs.
Proof.
  intros Haware w' evs. subst w' evs.
  destruct (cleanup_fetch w) as (ls & w1 & e1 & E1 & T1 & Q1 & Hfor & Hcount).
  destruct (cleanup_loop_events now ls (Hfor _ Haware) false w1)
    as (e2 & w2 & E2 & T2 & Q2 & N2).
  destruct (unmarked_counts e1 Q1) as (S1 & X1 & _).
  pose proof (not_sync_count e2 Q2) as S2.
  assert (Hrun : Scheduler.cleanup_expired_listings cfg now w
                 = (if existsb (Obs.is_expired now) ls
                    then Scheduler.update_available_lists cfg else ret tt) w2).
  { unfold Scheduler.cleanup_expired_listings.
    rewrite <- bind_assoc. unfold bind at 1. rewrite E1.
    unfold bind at 1. unfold datetime_now. rewrite E2. reflexivity. }
  rewrite Hrun.
  assert (Hex : existsb (Obs.is_expired now) ls = false
                <-> List.length (filter (Obs.is_expired now) ls) = 0%nat).
  { clear. induction ls as [|l ls IH]; cbn [existsb filter]; [tauto|].
    destruct (Obs.is_expired now l); cbn [orb List.length]; [|exact IH].
    split; discriminate. }
  destruct (existsb (Obs.is_expired now) ls) eqn:Eex.
  - destruct (update_available_lists_events cfg w2) as (e3 & T3 & Q3).
    destruct (unmarked_counts e3 Q3) as (S3 & X3 & _).
    assert (Hev : Obs.events_since w (snd (Scheduler.update_available_lists cfg w2))
                  = ((e1 ++ e2) ++ EvPrint Obs.sync_mark [] :: e3)%list).
    { apply events_since_app. rewrite T3, T2, T1, <- !app_assoc. reflexivity. }
    rewrite Hev.
    assert (Hn : Obs.expirations ((e1 ++ e2) ++ EvPrint Obs.sync_mark [] :: e3)
                 = List.length (filter (Obs.is_expired now) ls)).
    { unfold Obs.expirations in *.
      change (EvPrint Obs.sync_mark [] :: e3)%list
        with ([EvPrint Obs.sync_mark []] ++ e3)%list.
      rewrite !count_print_app, X1, N2, X3. cbn. lia. }
    assert (Hs : Obs.sync_invocations ((e1 ++ e2) ++ EvPrint Obs.sync_mark [] :: e3)
                 = 1%nat).
    { unfold Obs.sync_invocations in *.
      change (EvPrint Obs.sync_mark [] :: e3)%list
        with ([EvPrint Obs.sync_mark []] ++ e3)%list.
      rewrite !count_print_app, S1, S2, S3. reflexivity. }
    rewrite Hn, Hs.
    assert (Hpos : List.length (filter (Obs.is_expired now) ls) <> 0%nat).
    { intros Hz. apply Hex in Hz. discriminate. }
    split; [destruct (List.length _); [contradiction | reflexivity]|].
    split; [intros Hnf; apply Hcount; exact Hnf|].
    exists (e1 ++ e2)%list, (EvPrint Obs.sync_mark [] :: e3)%list.
    split; [reflexivity|].
    unfold Obs.sync_invocations, Obs.expirations in *.
    change (EvPrint Obs.sync_mark [] :: e3)%list
      with ([EvPrint Obs.sync_mark []] ++ e3)%list.
    rewrite !count_print_app, S1, S2, S3, X1, N2, X3. cbn. repeat split; lia.
  - cbn [ret snd].
    assert (Hev : Obs.events_since w w2 = (e1 ++ e2)%list).
    { apply events_since_app. rewrite T2, T1, <- app_assoc. reflexivity. }
    rewrite Hev.
    assert (Hz : List.length (filter (Obs.is_expired now) ls) = 0%nat)
      by (apply Hex; reflexivity).
    assert (Hn : Obs.expirations (e1 ++ e2) = 0%nat).
    { unfold Obs.expirations in *. rewrite count_print_app, X1, N2, Hz. reflexivity. }
    assert (Hs : Obs.sync_invocations (e1 ++ e2) = 0%nat).
    { unfold Obs.sync_invocations in *. rewrite count_print_app, S1, S2. reflexivity. }
    rewrite Hn, Hs.
    split; [reflexivity|].
    split; [intros Hnf; rewrite <- (Hcount _ Hnf); symmetry; exact Hz|].
    exists (e1 ++ e2)%list, []. rewrite app_nil_r, Hn, Hs. now repeat split.
Qed.

Lemma sweep_syncs_once_witness :
  forallb Obs.aware_expiry (active_listings Scenario.both) = true
  /\ Obs.sync_invocations
       (Obs.events_since Scenario.both
          (snd (Scheduler.cleanup_expired_listings Scenario.cfg (3 * Scenario.hour)
                                                   Scenario.both)))
     = (if (Obs.expirations
              (Obs.events_since Scenario.both
                 (snd (Scheduler.cleanup_expired_listings Scenario.cfg (3 * Scenario.hour)
                                                          Scenario.both))) =? 0)%nat
        then 0 else 1)%nat.
Proof.
  split; [reflexivity|].
  apply (sweep_syncs_once Scenario.cfg (3 * Scenario.hour) Scenario.both).
  reflexivity.
Defined.

(** Two listings expire in one pass; the synchronizer runs once. *)
Example sweep_of_two_listings :
  let evs := Obs.events_since Scenario.both
               (snd (Scheduler.cleanup_expired_listings Scenario.cfg (3 * Scenario.hour)
                                                        Scenario.both)) in
  Obs.expirations evs = 2%nat /\ Obs.sync_invocations evs = 1%nat.
Proof. vm_compute. split; reflexivity. Qed.

(** ** Reads of the store *)

Lemma get_active_listing_found (user_id : Z) (w w1 : World) (l : Listing.t) :
  Db.get_active_listing user_id w = (Ok (Some l), w1) ->
  trace w1 = (trace w ++ [EvDb (SelectListing user_id) true])%list
  /\ Obs.same_state w w1
  /\ faults w1 = tl (faults w)
  /\ In l (active_listings w) /\ Listing.user_id l = user_id.
Proof.
  destruct w as [ps als lms nid ch nmid ud fl tr]. unfold Obs.same_state. run.
  intros H.
  assert (Hin : forall x rest,
             filter (fun l0 => Listing.user_id l0 =? user_id) als = x :: rest ->
             In x als /\ Listing.user_id x = user_id).
  { intros x rest E.
    assert (Hx : In x (filter (fun l0 => Listing.user_id l0 =? user_id) als))
      by (rewrite E; now left).
    apply filter_In in Hx as [Hx1 Hx2]. apply Z.eqb_eq in Hx2. now split. }
  destruct fl as [|[|] fl]; run_in H;
    destruct (filter _ als) as [|x rest] eqn:E; run_in H; inversion H; subst;
    destruct (Hin _ _ eq_refl); cbn [tl]; now repeat split.
Qed.

Lemma get_profile_found (user_id : Z) (w w1 : World) (p : dict) :
  Db.get_profile user_id w = (Ok (Some p), w1) ->
  trace w1 = (trace w ++ [EvDb (SelectProfile user_id) true])%list
  /\ Obs.same_state w w1
  /\ faults w1 = tl (faults w).
Proof.
  destruct w as [ps als lms nid ch nmid ud fl tr]. unfold Obs.same_state. run.
  intros H.
  destruct fl as [|[|] fl]; run_in H; try discriminate;
    destruct (filter _ ps) as [|x rest] eqn:E; run_in H; inversion H; subst;
    cbn [tl]; now repeat split.
Qed.

(** ** The cooldown *)

Lemma wait_minutes_seconds (time_left : Z) :
  0 < time_left ->
  let minutes := int_of_float (floordiv (total_seconds time_left) 60) in
  let seconds := int_of_float (fmod (total_seconds time_left) 60) in
  0 <= minutes /\ 0 <= seconds < 60
  /\ minutes * 60 + seconds = time_left / 1000000.
Proof.
  intros H. unfold int_of_float, floordiv, fmod, total_seconds.
  change (60 * 1000000) with 60000000.
  pose proof (Z.mod_pos_bound time_left 60000000 ltac:(lia)) as Hm.
  assert (0 <= time_left / 60000000) by (apply Z.div_pos; lia).
  rewrite !Z.quot_div_nonneg by lia.
  rewrite Z.div_mul by lia.
  split; [assumption|].
  split; [split; [apply Z.div_pos; lia | apply Z.div_lt_upper_bound; lia]|].
  rewrite (Z.div_mod time_left 60000000) at 3 by lia.
  replace (60000000 * (time_left / 60000000) + time_left mod 60000000)
    with ((time_left / 60000000 * 60) * 1000000 + time_left mod 60000000) by lia.
  rewrite Z.div_add_l by lia. reflexivity.
Qed.

(** C1, as stated, fails on the report of the wait: five minutes and half a
    second after the last bump, with the cooldown of thirty minutes, the
    wait left is 24 min 59.5 s and the reply says "24m 59s". *)
Lemma bump_command_wait_counterexample :
  let now := 5 * Scenario.minute + 500000 in
  let run := Admin.bump_command Scenario.cfg (Scenario.update Scenario.U1 "") now
                                Scenario.only_U1 in
  Listing.last_bump_at Scenario.listing_U1 = IsoAware 0
  /\ Obs.events_since Scenario.only_U1 (snd run)
     = [EvDb (SelectListing Scenario.U1) true; EvReply Obs.cooldown_reply [24; 59]]
  /\ Obs.wait_remaining (Obs.can_bump 0 now (30 * Scenario.minute)) = 1499500000
  /\ (24 * 60 + 59) * Scenario.second <> 1499500000.
Proof. vm_compute. repeat split; try reflexivity. discriminate. Qed.

(** C1 (amended): for an approved user in the group chat whose listing was
    last bumped at [t], the bump is turned down with the cooldown reply
    exactly when [now - t < cooldown], that is when [can_bump] does not
    allow it (the boundary instant is allowed).  When it is turned down the
    handler returns normally, the wait left is [cooldown - (now - t)], which
    is positive (the clamp at zero never applies), the reply reports it cut
    to whole seconds as minutes and seconds, no call of the Channel Gateway
    is made, and the tables, the chat and the user data are unchanged. *)
Theorem bump_command_cooldown
        (cfg : Constants.t) (update : Admin.Update) (now : Z) (w w1 : World)
        (listing : Listing.t) (t : Z) :
  Admin.is_admin cfg (Admin.effective_user_id update) = true ->
  Admin.effective_chat_id update = Constants.GROUP_CHAT_ID cfg ->
  Db.get_active_listing (Admin.effective_user_id update) w = (Ok (Some listing), w1) ->
  Listing.last_bump_at listing = IsoAware t ->
  let cooldown := timedelta_minutes (Constants.COOLDOWN_MINUTES cfg) in
  let d := Obs.can_bump t now cooldown in
  let run := Admin.bump_command cfg update now w in
  existsb (Obs.is_reply Obs.cooldown_reply) (Obs.events_since w (snd run))
  = negb (Obs.allowed d)
  /\ (Obs.allowed d = false ->
      fst run = Ok tt
      /\ Obs.wait_remaining d = cooldown - (now - t)
      /\ 0 < Obs.wait_remaining d
      /\ (exists minutes seconds,
             Obs.events_since w1 (snd run)
             = [EvReply Obs.cooldown_reply [minutes; seconds]]
             /\ 0 <= minutes /\ 0 <= seconds < 60
             /\ minutes * 60 + seconds = Obs.wait_remaining d / 1000000)
      /\ Obs.bot_events (Obs.events_since w (snd run)) = []
      /\ Obs.same_state w (snd run)).
Proof.
  intros Hadmin Hchat Hget Hlast cooldown d run.
  destruct (get_active_listing_found _ _ _ _ Hget) as (T1 & S1 & _ & _ & _).
  assert (Hrun : run
    = (on_cooldown <- lift (dt_lt (Aware now) (Aware (t + cooldown))) ;;
       if on_cooldown then
         time_left <- lift (dt_sub (Aware (t + cooldown)) (Aware now)) ;;
         reply Obs.cooldown_reply
               [int_of_float (floordiv (total_seconds time_left) 60);
                int_of_float (fmod (total_seconds time_left) 60)]
       else
         expires_at <- lift (fromisoformat (Listing.expires_at listing)) ;;
         time_remaining <- lift (dt_sub expires_at (Aware now)) ;;
         reply "You have {}h {}m remaining on your availability. Do you want to keep the remaining time or reset the timer?"
               [int_of_float (floordiv (total_seconds time_remaining) 3600);
                int_of_float (floordiv (fmod (total_seconds time_remaining) 3600) 60)] ;;
         Admin.put_user_data (Admin.effective_user_id update)
           (mkUserData (Some (Listing.id listing))
                       (Some (total_seconds time_remaining)))) w1).
  { subst run. unfold Admin.bump_command, Admin.check_admin.
    rewrite Hadmin. cbn [negb]. unfold bind at 1, ret. cbn [negb].
    rewrite Hchat, Z.eqb_refl. cbn [negb].
    unfold bind at 1. rewrite Hget.
    unfold bind at 1, lift at 1. rewrite Hlast. cbn [fromisoformat dt_add].
    reflexivity. }
  rewrite Hrun. clear Hrun run.
  unfold Obs.can_bump in d. subst d. cbn [Obs.allowed Obs.wait_remaining].
  unfold bind at 1, lift at 1. cbn [dt_lt].
  destruct (now <? t + cooldown) eqn:Elt.
  - apply Z.ltb_lt in Elt.
    assert (Hge : (now - t >=? cooldown) = false).
    { rewrite Z.geb_leb. apply Z.leb_gt. lia. }
    rewrite Hge. cbn [negb].
    unfold bind, lift, reply, emit. cbn [dt_sub fst snd].
    destruct S1 as (P1 & P2 & P3 & P4 & P5 & P6 & P7).
    split.
    + unfold Obs.events_since. cbn [trace]. rewrite T1, <- app_assoc, skipn_length_app.
      reflexivity.
    + intros _. split; [reflexivity|].
      split; [lia|]. split; [lia|].
      destruct (wait_minutes_seconds (t + cooldown - now) ltac:(lia)) as (M1 & M2 & M3).
      split.
      * do 2 eexists. split; [|split; [exact M1|split; [exact M2|]]].
        -- unfold Obs.events_since. cbn [trace]. rewrite skipn_length_app. reflexivity.
        -- rewrite M3. f_equal. lia.
      * split.
        -- unfold Obs.events_since. cbn [trace]. rewrite T1, <- app_assoc, skipn_length_app.
           reflexivity.
        -- unfold Obs.same_state. cbn [profiles active_listings list_messages
             next_listing_id chat next_message_id user_data]. now repeat split.
  - apply Z.ltb_ge in Elt.
    assert (Hge : (now - t >=? cooldown) = true).
    { rewrite Z.geb_leb. apply Z.leb_le. lia. }
    rewrite Hge. cbn [negb].
    split; [|discriminate].
    destruct w1 as [ps als lms nid ch nmid ud fl tr]. cbn [trace] in T1.
    unfold Obs.events_since, Admin.put_user_data. run.
    repeat (break_match; run); rewrite T1, <- ?app_assoc, skipn_length_app; reflexivity.
Qed.

Lemma bump_command_cooldown_witness :
  Admin.is_admin Scenario.cfg Scenario.U1 = true
  /\ existsb (Obs.is_reply Obs.cooldown_reply)
             (Obs.events_since Scenario.only_U1
                (snd (Admin.bump_command Scenario.cfg (Scenario.update Scenario.U1 "")
                                         (5 * Scenario.minute) Scenario.only_U1)))
     = negb (Obs.allowed (Obs.can_bump 0 (5 * Scenario.minute) (timedelta_minutes 30))).
Proof.
  split; [reflexivity|].
  apply (bump_command_cooldown
           Scenario.cfg (Scenario.update Scenario.U1 "") (5 * Scenario.minute)
           Scenario.only_U1 (snd (Db.get_active_listing Scenario.U1 Scenario.only_U1))
           Scenario.listing_U1 0); reflexivity.
Defined.

(** The scenario of the specification: a bump five minutes after the last
    one is turned down with 25 minutes left, without any gateway call; at
    thirty minutes sharp the bump goes on to its prompt. *)
Example bump_five_minutes_after :
  let run := Admin.bump_command Scenario.cfg (Scenario.update Scenario.U1 "")
                                (5 * Scenario.minute) Scenario.only_U1 in
  Obs.events_since Scenario.only_U1 (snd run)
  = [EvDb (SelectListing Scenario.U1) true; EvReply Obs.cooldown_reply [25; 0]]
  /\ Obs.bot_events (Obs.events_since Scenario.only_U1 (snd run)) = [].
Proof. vm_compute. split; reflexivity. Qed.

Example bump_at_the_boundary :
  let run := Admin.bump_command Scenario.cfg (Scenario.update Scenario.U1 "")
                                (30 * Scenario.minute) Scenario.only_U1 in
  existsb (Obs.is_reply Obs.cooldown_reply)
          (Obs.events_since Scenario.only_U1 (snd run)) = false
  /\ Admin.user_data_of (user_data (snd run)) Scenario.U1
     = mkUserData (Some 1) (Some (90 * Scenario.minute)).
Proof. vm_compute. split; reflexivity. Qed.

(** ** The /available command and Create *)

(** Brings [events_since] of two explicit worlds to the list added. *)
Ltac events :=
  unfold Obs.events_since; cbn [trace];
  rewrite <- ?app_assoc; rewrite ?skipn_length_app; cbn [app].





(** ** Records are written after the send *)

Lemma has_message_app_new (c rest : list (Z * string)) (m : Z) (x : string) :
  Bot.has_message (c ++ (m, x) :: rest) m = true.
Proof.
  unfold Bot.has_message. rewrite existsb_app. cbn [existsb fst].
  rewrite Z.eqb_refl. cbn [orb]. apply orb_true_r.
Qed.

(** [run], with the operations on time unfolded as well. *)
Ltac run_time :=
  cbv beta iota zeta delta
      [dt_add dt_sub dt_lt dt_le datetime_now isoformat fromisoformat]; run;
  cbn [Bot.album map fst snd no_profile] in *; try discriminate.

(** Settles the three facts on a run whose events are explicit. *)
Ltac settle_writes :=
  split;
  [ cbn [Obs.writes_follow_sends Obs.written_id Obs.sent_id existsb andb orb];
    rewrite ?Z.eqb_refl; reflexivity
  | split;
    [ cbn [Obs.nothing_sent Obs.sent_id forallb andb];
      intros Hnone; first [reflexivity | discriminate]
    | idtac ] ].

(** Create: every write follows a send; no send, no record; a new record
    holds the id of a message sent in the run and still in the chat. *)
Lemma create_record_after_send
      (cfg : Constants.t) (render : Formatting.renderer) (update : Admin.Update)
      (now1 now2 : Z) (w : World) :
  let run := Admin.post_listing_callback cfg render update now1 now2 w in
  let evs := Obs.events_since w (snd run) in
  Obs.writes_follow_sends [] evs = true
  /\ (Obs.nothing_sent evs = true -> active_listings (snd run) = active_listings w)
  /\ (forall l, In l (active_listings (snd run)) ->
                In l (active_listings w)
                \/ (Obs.confirmed_sent (Listing.message_id l) evs = true
                    /\ Bot.has_message (chat (snd run)) (Listing.message_id l) = true)).
Proof.
  intros run evs. subst run evs.
  destruct w as [ps als lms nid ch nmid ud fl tr].
  unfold Admin.post_listing_callback, Admin.update_available_lists_now. run_time.
  repeat (break_match; run_time).
  all: events.
  all: settle_writes.
  all: intros row Hin; try (left; exact Hin).
  all: apply in_app_or in Hin; destruct Hin as [Hin|[<-|[]]]; [left; exact Hin|right].
  all: cbn [Listing.message_id Obs.confirmed_sent Obs.sent_id existsb orb];
    rewrite ?Z.eqb_refl; cbn [orb]; rewrite ?orb_true_r.
  all: split; [reflexivity | apply has_message_app_new].
Qed.

(** Bump: the same three facts. *)
Lemma bump_record_after_send
      (render : Formatting.renderer) (update : Admin.Update) (now : Z) (w : World) :
  let run := Admin.bump_execute_callback render update now w in
  let evs := Obs.events_since w (snd run) in
  Obs.writes_follow_sends [] evs = true
  /\ (Obs.nothing_sent evs = true -> active_listings (snd run) = active_listings w)
  /\ (forall l, In l (active_listings (snd run)) ->
                In l (active_listings w)
                \/ (Obs.confirmed_sent (Listing.message_id l) evs = true
                    /\ Bot.has_message (chat (snd run)) (Listing.message_id l) = true)).
Proof.
  intros run evs. subst run evs.
  destruct w as [ps als lms nid ch nmid ud fl tr].
  unfold Admin.bump_execute_callback, Admin.update_available_lists_now,
    Admin.get_user_data, Admin.put_user_data. run_time.
  repeat (break_match; run_time).
  all: events.
  all: settle_writes.
  all: intros row Hin; try (left; exact Hin).
  all: apply in_map_iff in Hin; destruct Hin as (x & Hx & Hin).
  all: destruct (Listing.id x =? _); subst row; [right|left; exact Hin].
  all: cbn [Listing.message_id Obs.confirmed_sent Obs.sent_id existsb orb];
    rewrite ?Z.eqb_refl; cbn [orb]; rewrite ?orb_true_r.
  all: split; [reflexivity | apply has_message_app_new].
Qed.


(** C6: in every run of Create ([post_listing_callback]) and of Bump
    ([bump_execute_callback]), whatever the state and whichever remote calls
    fail, every write of a listing record (insert or update) comes after a
    gateway send of the same run that returned the message id it carries;
    when no send went through, the table of listings is left as it was (on
    Create, a failed post leaves no record); and every row of the table
    after the run is either a row from before or holds the id of a message
    that was sent in the run and is in the chat. *)
Theorem record_written_only_after_send
        (cfg : Constants.t) (render : Formatting.renderer) (update : Admin.Update)
        (now1 now2 : Z) (w : World) :
  let create := Admin.post_listing_callback cfg render update now1 now2 w in
  let bump := Admin.bump_execute_callback render update now1 w in
  (Obs.writes_follow_sends [] (Obs.events_since w (snd create)) = true
   /\ (Obs.nothing_sent (Obs.events_since w (snd create)) = true ->
       active_listings (snd create) = active_listings w)
   /\ (forall l, In l (active_listings (snd create)) ->
          In l (active_listings w)
          \/ (Obs.confirmed_sent (Listing.message_id l)
                                 (Obs.events_since w (snd create)) = true
              /\ Bot.has_message (chat (snd create)) (Listing.message_id l) = true)))
  /\ (Obs.writes_follow_sends [] (Obs.events_since w (snd bump)) = true
      /\ (Obs.nothing_sent (Obs.events_since w (snd bump)) = true ->
          active_listings (snd bump) = active_listings w)
      /\ (forall l, In l (active_listings (snd bump)) ->
             In l (active_listings w)
             \/ (Obs.confirmed_sent (Listing.message_id l)
                                    (Obs.events_since w (snd bump)) = true
                 /\ Bot.has_message (chat (snd bump)) (Listing.message_id l) = true))).
Proof.
  intros create bump. split.
  - apply create_record_after_send.
  - apply bump_record_after_send.
Qed.

(** A failed post on Create: the send raises, the handler raises, and the
    table holds no record for the owner. *)
Example create_post_failure :
  let w := mkWorld [(Scenario.U1, Scenario.profile_U1)] [] [] 1 [] 100 [] [false; true] [] in
  let run := Admin.post_listing_callback
               Scenario.cfg Scenario.render (Scenario.update Scenario.U1 "duration_2h")
               0 0 w in
  fst run = Raise TelegramError /\ active_listings (snd run) = [].
Proof. vm_compute. split; reflexivity. Qed.

(** ** Bump *)

Lemma user_data_of_put (u : list (Z * UserData)) (user_id : Z) (d : UserData) :
  Admin.user_data_of (Admin.user_data_put u user_id d) user_id = d.
Proof.
  induction u as [|[k d'] u IH]; cbn [Admin.user_data_put Admin.user_data_of].
  - now rewrite Z.eqb_refl.
  - destruct (k =? user_id) eqn:E; cbn [Admin.user_data_of]; now rewrite E.
Qed.

Lemma existsb_map_same {A : Type} (p : A -> bool) (f : A -> A) (l : list A) :
  (forall x, p (f x) = p x) -> existsb p (map f l) = existsb p l.
Proof.
  intros H. induction l as [|x l IH]; [reflexivity|].
  cbn [map existsb]. now rewrite H, IH.
Qed.

Lemma filter_head_in {A : Type} (p : A -> bool) (l rest : list A) (x : A) :
  filter p l = x :: rest -> In x l /\ p x = true.
Proof.
  intros E. apply filter_In. rewrite E. now left.
Qed.

(** What a bump whose update went through leaves in the record. *)
Lemma bump_execute_updates
      (render : Formatting.renderer) (update : Admin.Update) (now : Z) (w : World)
      (listing_id : Z) (remaining : pyfloat) :
  Admin.user_data_of (user_data w) (Admin.effective_user_id update)
  = mkUserData (Some listing_id) (Some remaining) ->
  let run := Admin.bump_execute_callback render update now w in
  Obs.record_updated (Obs.events_since w (snd run)) = true ->
  Obs.has_listing (snd run) listing_id = true
  /\ forall l, In l (active_listings (snd run)) -> Listing.id l = listing_id ->
       Listing.last_bump_at l = IsoAware now
       /\ (Admin.data update = "bump_keep" ->
           Listing.expires_at l = IsoAware (now + remaining))
       /\ (forall d, Admin.data update <> "bump_keep" ->
                     int_of_str (split_last "_" (Admin.data update) "") = Ok d ->
                     Listing.expires_at l = IsoAware (now + timedelta_hours d)).
Proof.
  intros Hud run. subst run.
  destruct w as [ps als lms nid ch nmid ud fl tr]. cbn [user_data] in Hud.
  unfold Admin.bump_execute_callback, Admin.update_available_lists_now,
    Admin.get_user_data, Admin.put_user_data, Obs.has_listing. run_time.
  rewrite Hud. cbn [bump_listing_id bump_time_remaining].
  repeat (break_match; run_time).
  all: events.
  all: cbn [Obs.record_updated existsb orb]; intros Hup; try discriminate.
  all: match goal with
       | H : filter (fun _ : Listing.t => _) _ = _ :: _ |- _ =>
           apply filter_head_in in H as [Hin _]
       end.
  all: match goal with
       | H : negb (Listing.id _ =? _) = false |- _ => apply negb_false_iff in H
       end.
  all: split;
    [ rewrite existsb_map_same
        by (intros x; destruct (Listing.id x =? listing_id) eqn:Ex;
            [cbn [Listing.id]; exact Ex | exact Ex]);
      apply existsb_exists; eexists; split; eassumption
    | intros row Hrow Hid; apply in_map_iff in Hrow; destruct Hrow as (x & Hx & _);
      destruct (Listing.id x =? listing_id) eqn:Ex;
      [ subst row; cbn [Listing.last_bump_at Listing.expires_at]
      | subst row; apply Z.eqb_neq in Ex; contradiction ] ].
  all: split; [reflexivity|].
  all: match goal with
       | H : (_ =? "bump_keep")%string = true |- _ => apply String.eqb_eq in H
       | H : (_ =? "bump_keep")%string = false |- _ => apply String.eqb_neq in H
       end.
  all: split; [intros Hk | intros hours Hnk Hd]; try contradiction; try congruence.
  all: reflexivity.
Qed.


(** What /bump stores when it prompts. *)
Lemma bump_command_prompted
      (cfg : Constants.t) (update : Admin.Update) (now : Z) (w : World) :
  let run := Admin.bump_command cfg update now w in
  existsb (Obs.is_reply Obs.bump_prompt) (Obs.events_since w (snd run)) = true ->
  exists l e,
    In l (active_listings w)
    /\ Listing.user_id l = Admin.effective_user_id update
    /\ Listing.expires_at l = IsoAware e
    /\ Admin.user_data_of (user_data (snd run)) (Admin.effective_user_id update)
       = mkUserData (Some (Listing.id l)) (Some (e - now))
    /\ active_listings (snd run) = active_listings w.
Proof.
  intros run. subst run.
  destruct w as [ps als lms nid ch nmid ud fl tr].
  unfold Admin.bump_command, Admin.check_admin, Admin.put_user_data. run_time.
  repeat (break_match; run_time).
  all: events.
  all: cbn [existsb Obs.is_reply orb]; intros Hp; try discriminate.
  all: match goal with
       | H : filter (fun _ : Listing.t => _) _ = _ :: _ |- _ =>
           apply filter_head_in in H as [Hin Huid]; apply Z.eqb_eq in Huid
       end.
  all: do 2 eexists; split; [exact Hin|]; split; [exact Huid|];
    split; [eassumption|]; split; [apply user_data_of_put | reflexivity].
Qed.

(** C3: take a /bump at [now1] that prompts, followed by the choice of the
    same user at [now2] whose update of the record goes through.  The record
    then has [last_bump_at = now2]; with "keep remaining" its new expiry [e']
    satisfies [e' - now2 = e - now1], where [e] is the expiry /bump read: the
    time remaining is preserved, up to the time between the two readings of
    the clock; with "reset to d hours" its new expiry is [now2 + d] hours,
    whatever the time remaining was. *)
Theorem bump_sets_expiry
        (cfg : Constants.t) (render : Formatting.renderer)
        (command choice : Admin.Update) (now1 now2 : Z) (w0 : World) :
  Admin.effective_user_id choice = Admin.effective_user_id command ->
  let w1 := snd (Admin.bump_command cfg command now1 w0) in
  let w2 := snd (Admin.bump_execute_callback render choice now2 w1) in
  existsb (Obs.is_reply Obs.bump_prompt) (Obs.events_since w0 w1) = true ->
  Obs.record_updated (Obs.events_since w1 w2) = true ->
  exists l0 e,
    In l0 (active_listings w0)
    /\ Listing.user_id l0 = Admin.effective_user_id command
    /\ Listing.expires_at l0 = IsoAware e
    /\ Obs.has_listing w2 (Listing.id l0) = true
    /\ forall l, In l (active_listings w2) -> Listing.id l = Listing.id l0 ->
         Listing.last_bump_at l = IsoAware now2
         /\ (Admin.data choice = "bump_keep" ->
             exists e', Listing.expires_at l = IsoAware e' /\ e' - now2 = e - now1)
         /\ (forall d, Admin.data choice <> "bump_keep" ->
                       int_of_str (split_last "_" (Admin.data choice) "") = Ok d ->
                       Listing.expires_at l = IsoAware (now2 + timedelta_hours d)).
Proof.
  intros Huser w1 w2 Hprompt Hupdated.
  destruct (bump_command_prompted cfg command now1 w0 Hprompt)
    as (l0 & e & Hin & Huid & Hexp & Hud & _).
  fold w1 in Hud. rewrite <- Huser in Hud.
  destruct (bump_execute_updates render choice now2 w1 _ _ Hud Hupdated) as [Hhas Hrows].
  exists l0, e. repeat split; try assumption.
  - now apply (Hrows l).
  - intros Hkeep. exists (now2 + (e - now1)). split; [|lia].
    now apply (Hrows l).
  - intros d Hnk Hd. now apply (Hrows l).
Qed.

Lemma bump_sets_expiry_witness :
  exists l0 e,
    In l0 (active_listings Scenario.only_U1)
    /\ Listing.user_id l0 = Scenario.U1
    /\ Listing.expires_at l0 = IsoAware e
    /\ Obs.has_listing
         (snd (Admin.bump_execute_callback
                 Scenario.render (Scenario.update Scenario.U1 "bump_keep")
                 (31 * Scenario.minute)
                 (snd (Admin.bump_command Scenario.cfg (Scenario.update Scenario.U1 "")
                                          (30 * Scenario.minute) Scenario.only_U1))))
         (Listing.id l0) = true.
Proof.
  destruct (bump_sets_expiry
              Scenario.cfg Scenario.render
              (Scenario.update Scenario.U1 "") (Scenario.update Scenario.U1 "bump_keep")
              (30 * Scenario.minute) (31 * Scenario.minute) Scenario.only_U1
              eq_refl eq_refl eq_refl)
    as (l0 & e & H1 & H2 & H3 & H4 & _).
  exists l0, e. repeat split; assumption.
Defined.

(** /bump at T0+30m and "keep remaining" at T0+31m: 90 minutes were left,
    the new expiry is 90 minutes after the second reading. *)
Example bump_keep_remaining :
  let w1 := snd (Admin.bump_command Scenario.cfg (Scenario.update Scenario.U1 "")
                                    (30 * Scenario.minute) Scenario.only_U1) in
  let w2 := snd (Admin.bump_execute_callback
                   Scenario.render (Scenario.update Scenario.U1 "bump_keep")
                   (31 * Scenario.minute) w1) in
  active_listings w2
  = [Listing.mk 1 Scenario.U1 101 (IsoAware (121 * Scenario.minute)) 1
                (IsoAware (31 * Scenario.minute))].
Proof. vm_compute. reflexivity. Qed.

(** "Reset 4h" at T0+31m: the new expiry is T0+4h31m. *)
Example bump_reset_four_hours :
  let w1 := snd (Admin.bump_command Scenario.cfg (Scenario.update Scenario.U1 "")
                                    (30 * Scenario.minute) Scenario.only_U1) in
  let w2 := snd (Admin.bump_execute_callback
                   Scenario.render (Scenario.update Scenario.U1 "bump_reset_4")
                   (31 * Scenario.minute) w1) in
  active_listings w2
  = [Listing.mk 1 Scenario.U1 101
                (IsoAware (4 * Scenario.hour + 31 * Scenario.minute)) 4
                (IsoAware (31 * Scenario.minute))].
Proof. vm_compute. reflexivity. Qed.

(** When another listing remains, the resync of the sweep does edit the
    pinned message, and the expired owner is gone from it. *)
Example sweep_with_listing_left :
  let w := mkWorld [(Scenario.U1, Scenario.profile_U1); (Scenario.U2, Scenario.profile_U2)]
                   [Scenario.listing_U1;
                    Listing.mk 2 Scenario.U2 200 (IsoAware (4 * Scenario.hour)) 4
                               (IsoAware Scenario.hour)]
                   [("pinned", 7)] 3
                   [(7, "summary"); (100, "listing"); (200, "listing")] 201 [] [] [] in
  let run := Scheduler.cleanup_expired_listings Scenario.cfg (3 * Scenario.hour) w in
  chat (snd run)
  = [(7, "*AVAILABLE NOW (1 available)*" ++ newline ++ newline
           ++ "1\. U2  [View Post](https://t.me/c/1234/200)" ++ newline);
     (200, "listing")].
Proof. vm_compute. reflexivity. Qed.

(* ================================================================== *)
(** * Further properties of the store, the jobs and the handlers       *)
(* ================================================================== *)

(** * The store *)

(** [run], with the requests added to the store. *)
Ltac run_store :=
  cbv beta iota zeta delta
      [set_list_messages Db.execute_untraced Db.save_list_message];
  run.

(** X1: the four reads of the store never raise.  A failing request is
    logged and answered by "nothing" ([None], or [[]] for the list of all
    listings); otherwise the answer is the first matching row, respectively
    every listing by decreasing [last_bump_at].  No read changes a table,
    the chat or the user data. *)
Theorem db_reads_never_raise (user_id : Z) (list_type : string) (w : World) :
  (fst (Db.get_profile user_id w)
   = Ok (if Obs.next_fails w then None else Obs.table_profile w user_id)
   /\ Obs.same_state w (snd (Db.get_profile user_id w)))
  /\ (fst (Db.get_active_listing user_id w)
      = Ok (if Obs.next_fails w then None else Obs.table_listing w user_id)
      /\ Obs.same_state w (snd (Db.get_active_listing user_id w)))
  /\ (fst (Db.get_all_active_listings w)
      = Ok (if Obs.next_fails w then []
            else Db.order_by_last_bump_at_desc (active_listings w))
      /\ Obs.same_state w (snd (Db.get_all_active_listings w)))
  /\ (fst (Db.get_list_message list_type w)
      = Ok (if Obs.next_fails w then None else Obs.table_pointer w list_type)
      /\ Obs.same_state w (snd (Db.get_list_message list_type w))).
Proof.
  destruct w as [ps als lms nid ch nmid ud fl tr].
  unfold Obs.next_fails, Obs.table_profile, Obs.table_listing, Obs.table_pointer,
    Obs.same_state.
  cbn [faults profiles active_listings list_messages].
  repeat split; run; destruct fl as [|[|] fl]; run; try reflexivity;
    try (destruct (filter _ _); reflexivity).
Qed.

(** X2: the writes of the store never raise: they answer [True] or [False].
    Saving a listing or a list message answers [False] exactly when the
    request fails; updating or deleting a listing answers [True] exactly
    when the request goes through and a row has that id.  A write whose
    request fails changes nothing. *)
Theorem db_writes_never_raise
        (now user_id message_id duration_hours listing_id : Z)
        (expires_at last : iso_text) (last_opt : option iso_text)
        (list_type : string) (w : World) :
  let save := Db.save_active_listing now user_id message_id expires_at duration_hours
                                     last_opt w in
  let update := Db.update_active_listing listing_id message_id expires_at
                                         duration_hours last w in
  let delete := Db.delete_active_listing listing_id w in
  let point := Db.save_list_message list_type message_id w in
  fst save = Ok (negb (Obs.next_fails w))
  /\ fst update = Ok (negb (Obs.next_fails w) && Obs.has_listing w listing_id)
  /\ fst delete = Ok (negb (Obs.next_fails w) && Obs.has_listing w listing_id)
  /\ fst point = Ok (negb (Obs.next_fails w))
  /\ (Obs.next_fails w = true ->
      Obs.same_state w (snd save) /\ Obs.same_state w (snd update)
      /\ Obs.same_state w (snd delete) /\ Obs.same_state w (snd point)).
Proof.
  destruct w as [ps als lms nid ch nmid ud fl tr].
  unfold Obs.next_fails, Obs.has_listing, Obs.same_state.
  cbn [faults active_listings].
  destruct fl as [|[|] fl]; run_store; repeat split; try reflexivity;
    try discriminate.
Qed.

(** ** Round trips *)

Lemma upsert_lookup (rows : list (string * Z)) (list_type : string) (message_id : Z) :
  exists r rest,
    filter (fun r => (fst r =? list_type)%string)
           (Db.upsert_list_message rows list_type message_id) = r :: rest
    /\ snd r = message_id.
Proof.
  induction rows as [|[t m] rows IH]; cbn [Db.upsert_list_message filter fst].
  - rewrite String.eqb_refl. now do 2 eexists.
  - destruct (t =? list_type)%string eqn:E; cbn [filter fst]; rewrite E;
      [now do 2 eexists | exact IH].
Qed.

Lemma upsert_lookup_other (rows : list (string * Z)) (list_type other : string)
      (message_id : Z) :
  other <> list_type ->
  filter (fun r => (fst r =? other)%string)
         (Db.upsert_list_message rows list_type message_id)
  = filter (fun r => (fst r =? other)%string) rows.
Proof.
  intros Hne. induction rows as [|[t m] rows IH]; cbn [Db.upsert_list_message filter fst].
  - destruct (list_type =? other)%string eqn:E; [|reflexivity].
    apply String.eqb_eq in E. congruence.
  - destruct (t =? list_type)%string eqn:E; cbn [filter fst].
    + apply String.eqb_eq in E. subst t.
      destruct (list_type =? other)%string eqn:E'; [|reflexivity].
      apply String.eqb_eq in E'. congruence.
    + now rewrite IH.
Qed.

Lemma upsert_types (rows : list (string * Z)) (list_type : string) (message_id : Z) :
  map fst (Db.upsert_list_message rows list_type message_id)
  = if existsb (fun r => (fst r =? list_type)%string) rows
    then map fst rows
    else (map fst rows ++ [list_type])%list.
Proof.
  induction rows as [|[t m] rows IH]; cbn [Db.upsert_list_message existsb map fst].
  - reflexivity.
  - destruct (t =? list_type)%string eqn:E; cbn [orb map fst]; [reflexivity|].
    rewrite IH. now destruct (existsb _ rows).
Qed.

(** X3: [save_list_message] then [get_list_message] gives back the saved
    message id; the rows of the other list types, the profiles, the listings
    and the chat are untouched, and a table with one row per list type keeps
    one row per list type. *)
Theorem list_pointer_round_trip (list_type : string) (message_id : Z) (w : World) :
  Obs.no_fault_in 2 w = true ->
  let w1 := snd (Db.save_list_message list_type message_id w) in
  fst (Db.save_list_message list_type message_id w) = Ok true
  /\ fst (Db.get_list_message list_type w1) = Ok (Some message_id)
  /\ (forall other, other <> list_type ->
                    Obs.table_pointer w1 other = Obs.table_pointer w other)
  /\ (NoDup (map fst (list_messages w)) -> NoDup (map fst (list_messages w1)))
  /\ profiles w1 = profiles w /\ active_listings w1 = active_listings w
  /\ chat w1 = chat w.
Proof.
  destruct w as [ps als lms nid ch nmid ud fl tr].
  unfold Obs.no_fault_in, Obs.table_pointer. cbn [faults].
  intros Hf.
  destruct fl as [|f1 [|f2 fl]]; cbn [firstn forallb] in Hf;
    repeat match goal with b : bool |- _ => destruct b end; try discriminate;
    run_store; cbn [list_messages].
  all: destruct (upsert_lookup lms list_type message_id) as (r & rest & -> & <-).
  all: repeat split; try reflexivity.
  all: try (intros other Hne; now rewrite upsert_lookup_other).
  all: intros Hnd; rewrite upsert_types;
    destruct (existsb _ lms) eqn:E; [exact Hnd|].
  all: apply NoDup_app; [exact Hnd | repeat constructor; intros [] | ].
  all: intros x Hx [Hxe|[]]; subst x; apply in_map_iff in Hx as ([t m] & Ht & Hin);
    cbn [fst] in Ht; subst t.
  all: assert (Hex : existsb (fun r : string * Z => (fst r =? list_type)%string) lms
                     = true)
    by (apply existsb_exists; exists (list_type, m);
        split; [exact Hin | apply String.eqb_refl]).
  all: congruence.
Qed.

Lemma list_pointer_round_trip_witness :
  Obs.no_fault_in 2 Scenario.only_U1 = true
  /\ fst (Db.get_list_message
            "chat" (snd (Db.save_list_message "chat" 300 Scenario.only_U1)))
     = Ok (Some 300).
Proof.
  split; [reflexivity|].
  exact (proj1 (proj2 (list_pointer_round_trip "chat" 300 Scenario.only_U1 eq_refl))).
Defined.

Lemma filter_map_same {A : Type} (p : A -> bool) (f : A -> A) (l : list A) :
  (forall x, p (f x) = p x) -> filter p (map f l) = map f (filter p l).
Proof.
  intros H. induction l as [|x l IH]; [reflexivity|].
  cbn [map filter]. rewrite H. destruct (p x); cbn [map]; now rewrite IH.
Qed.

(** X4: after [save_active_listing] for an owner without a listing,
    [get_active_listing] returns the saved row, under the id the table
    assigned; the listings of the other owners read as before and the next
    id moves by one. *)
Theorem listing_round_trip
        (now user_id message_id duration_hours : Z) (expires_at last : iso_text)
        (w : World) :
  Obs.no_fault_in 2 w = true ->
  Obs.table_listing w user_id = None ->
  let w1 := snd (Db.save_active_listing now user_id message_id expires_at
                                        duration_hours (Some last) w) in
  fst (Db.get_active_listing user_id w1)
  = Ok (Some (Listing.mk (next_listing_id w) user_id message_id expires_at
                         duration_hours last))
  /\ (forall other, other <> user_id ->
                    Obs.table_listing w1 other = Obs.table_listing w other)
  /\ next_listing_id w1 = next_listing_id w + 1.
Proof.
  destruct w as [ps als lms nid ch nmid ud fl tr].
  unfold Obs.no_fault_in, Obs.table_listing. cbn [faults active_listings next_listing_id].
  intros Hf Hnone.
  assert (Hals : filter (fun l => Listing.user_id l =? user_id) als = [])
    by (destruct (filter _ als); [reflexivity | discriminate]).
  destruct fl as [|f1 [|f2 fl]]; cbn [firstn forallb] in Hf;
    repeat match goal with b : bool |- _ => destruct b end; try discriminate;
    run_store; cbn [active_listings].
  all: rewrite !filter_app, Hals; cbn [filter Listing.user_id app];
    rewrite Z.eqb_refl.
  all: repeat split; try reflexivity.
  all: intros other Hne; rewrite filter_app; cbn [filter Listing.user_id];
    destruct (user_id =? other) eqn:E; [apply Z.eqb_eq in E; congruence|];
    now rewrite app_nil_r.
Qed.

Lemma listing_round_trip_witness :
  Obs.no_fault_in 2 Scenario.only_U1 = true
  /\ Obs.table_listing Scenario.only_U1 Scenario.U2 = None
  /\ fst (Db.get_active_listing
            Scenario.U2
            (snd (Db.save_active_listing
                    (5 * Scenario.minute) Scenario.U2 200 (IsoAware (2 * Scenario.hour)) 2
                    (Some (IsoAware (5 * Scenario.minute))) Scenario.only_U1)))
     = Ok (Some (Listing.mk 2 Scenario.U2 200 (IsoAware (2 * Scenario.hour)) 2
                            (IsoAware (5 * Scenario.minute)))).
Proof.
  split; [reflexivity|]. split; [reflexivity|].
  exact (proj1 (listing_round_trip
                  (5 * Scenario.minute) Scenario.U2 200 2 (IsoAware (2 * Scenario.hour))
                  (IsoAware (5 * Scenario.minute)) Scenario.only_U1 eq_refl eq_refl)).
Defined.

(** X5: after [update_active_listing] on the listing of an owner,
    [get_active_listing] returns that listing with its four updated fields;
    the update adds and removes no row and changes no id and no owner. *)
Theorem listing_update_round_trip
        (listing : Listing.t) (message_id duration_hours : Z)
        (expires_at last : iso_text) (w : World) :
  Obs.no_fault_in 2 w = true ->
  Obs.table_listing w (Listing.user_id listing) = Some listing ->
  let w1 := snd (Db.update_active_listing (Listing.id listing) message_id expires_at
                                          duration_hours last w) in
  fst (Db.get_active_listing (Listing.user_id listing) w1)
  = Ok (Some (Listing.mk (Listing.id listing) (Listing.user_id listing) message_id
                         expires_at duration_hours last))
  /\ List.length (active_listings w1) = List.length (active_listings w)
  /\ map Listing.id (active_listings w1) = map Listing.id (active_listings w)
  /\ map Listing.user_id (active_listings w1) = map Listing.user_id (active_listings w).
Proof.
  destruct w as [ps als lms nid ch nmid ud fl tr].
  unfold Obs.no_fault_in, Obs.table_listing. cbn [faults active_listings].
  intros Hf Hsome.
  destruct (filter (fun l => Listing.user_id l =? Listing.user_id listing) als)
    as [|l0 rest] eqn:Hals; [discriminate|]. injection Hsome as ->.
  destruct fl as [|f1 [|f2 fl]]; cbn [firstn forallb] in Hf;
    repeat match goal with b : bool |- _ => destruct b end; try discriminate;
    run_store; cbn [active_listings].
  all: rewrite filter_map_same
    by (intros x; destruct (Listing.id x =? Listing.id listing); reflexivity).
  all: rewrite Hals; cbn [map]; rewrite Z.eqb_refl.
  all: repeat split; try reflexivity; try apply length_map.
  all: rewrite map_map; apply map_ext; intros x;
    destruct (Listing.id x =? Listing.id listing); reflexivity.
Qed.

Lemma listing_update_round_trip_witness :
  Obs.no_fault_in 2 Scenario.only_U1 = true
  /\ Obs.table_listing Scenario.only_U1 (Listing.user_id Scenario.listing_U1)
     = Some Scenario.listing_U1
  /\ fst (Db.get_active_listing
            (Listing.user_id Scenario.listing_U1)
            (snd (Db.update_active_listing
                    (Listing.id Scenario.listing_U1) 101 (IsoAware (4 * Scenario.hour)) 4
                    (IsoAware (31 * Scenario.minute)) Scenario.only_U1)))
     = Ok (Some (Listing.mk (Listing.id Scenario.listing_U1)
                            (Listing.user_id Scenario.listing_U1) 101
                            (IsoAware (4 * Scenario.hour)) 4
                            (IsoAware (31 * Scenario.minute)))).
Proof.
  split; [reflexivity|]. split; [reflexivity|].
  exact (proj1 (listing_update_round_trip
                  Scenario.listing_U1 101 4 (IsoAware (4 * Scenario.hour))
                  (IsoAware (31 * Scenario.minute)) Scenario.only_U1 eq_refl eq_refl)).
Defined.

(** * Reading the profiles of the listings *)

Lemma same_state_refl (w : World) : Obs.same_state w w.
Proof. unfold Obs.same_state. now repeat split. Qed.

Lemma same_state_trans (w1 w2 w3 : World) :
  Obs.same_state w1 w2 -> Obs.same_state w2 w3 -> Obs.same_state w1 w3.
Proof.
  unfold Obs.same_state.
  intros (A1 & A2 & A3 & A4 & A5 & A6 & A7) (B1 & B2 & B3 & B4 & B5 & B6 & B7).
  repeat split; congruence.
Qed.

Lemma table_profile_same (w w1 : World) (user_id : Z) :
  Obs.same_state w w1 -> Obs.table_profile w1 user_id = Obs.table_profile w user_id.
Proof. intros (H & _). unfold Obs.table_profile. now rewrite H. Qed.

Lemma get_profile_spec (user_id : Z) (w : World) :
  exists w1 evs,
    Db.get_profile user_id w
    = (Ok (if Obs.next_fails w then None else Obs.table_profile w user_id), w1)
    /\ Obs.same_state w w1
    /\ faults w1 = tl (faults w)
    /\ trace w1 = (trace w ++ evs)%list
    /\ forallb Obs.not_bot evs = true.
Proof.
  destruct w as [ps als lms nid ch nmid ud fl tr].
  unfold Obs.next_fails, Obs.table_profile, Obs.same_state.
  cbn [faults profiles]. run.
  destruct fl as [|[|] fl]; run; try destruct (filter _ ps); run;
    do 2 eexists; (split; [reflexivity|]); cbn [tl];
    (split; [now repeat split|]); (split; [reflexivity|]);
    (split; [rewrite <- ?app_assoc; reflexivity | reflexivity]).
Qed.

Lemma get_all_spec (w : World) :
  exists w1 evs,
    Db.get_all_active_listings w
    = (Ok (if Obs.next_fails w then []
           else Db.order_by_last_bump_at_desc (active_listings w)), w1)
    /\ Obs.same_state w w1
    /\ faults w1 = tl (faults w)
    /\ trace w1 = (trace w ++ evs)%list
    /\ forallb Obs.not_bot evs = true.
Proof.
  destruct w as [ps als lms nid ch nmid ud fl tr].
  unfold Obs.next_fails, Obs.same_state. cbn [faults active_listings]. run.
  destruct fl as [|[|] fl]; run;
    do 2 eexists; (split; [reflexivity|]); cbn [tl];
    (split; [now repeat split|]); (split; [reflexivity|]);
    (split; [rewrite <- ?app_assoc; reflexivity | reflexivity]).
Qed.

Lemma get_list_message_spec (list_type : string) (w : World) :
  exists w1 evs,
    Db.get_list_message list_type w
    = (Ok (if Obs.next_fails w then None else Obs.table_pointer w list_type), w1)
    /\ Obs.same_state w w1
    /\ faults w1 = tl (faults w)
    /\ trace w1 = (trace w ++ evs)%list
    /\ forallb Obs.not_bot evs = true.
Proof.
  destruct w as [ps als lms nid ch nmid ud fl tr].
  unfold Obs.next_fails, Obs.table_pointer, Obs.same_state.
  cbn [faults list_messages]. run.
  destruct fl as [|[|] fl]; run; try destruct (filter _ lms); run;
    do 2 eexists; (split; [reflexivity|]); cbn [tl];
    (split; [now repeat split|]); (split; [reflexivity|]);
    (split; [rewrite <- ?app_assoc; reflexivity | reflexivity]).
Qed.

Lemma profiles_get_set (profiles : list (Z * dict)) (user_id other : Z) (p : dict) :
  profiles_get (Scheduler.profiles_set profiles user_id p) other
  = if user_id =? other then Some p else profiles_get profiles other.
Proof.
  induction profiles as [|[k q] profiles IH]; cbn [Scheduler.profiles_set profiles_get].
  - reflexivity.
  - destruct (k =? user_id) eqn:E; cbn [profiles_get].
    + apply Z.eqb_eq in E. subst k. now destruct (user_id =? other).
    + rewrite IH. destruct (k =? other) eqn:E'; [|reflexivity].
      apply Z.eqb_eq in E'. subst k. rewrite Z.eqb_sym in E. now rewrite E.
Qed.

(** The loop of [get_profiles_for_listings]: it never raises, only reads,
    and an entry of its result comes from the start value or is the
    non-empty first row of the table for one of the users; when no request
    fails, the result holds the row of every user who has one. *)
Lemma get_profiles_loop_spec (user_ids : list Z) :
  forall (acc : list (Z * dict)) (w : World),
  exists result w1 evs,
    Scheduler.get_profiles_loop user_ids acc w = (Ok result, w1)
    /\ Obs.same_state w w1
    /\ trace w1 = (trace w ++ evs)%list
    /\ forallb Obs.not_bot evs = true
    /\ (forall user_id p,
          profiles_get result user_id = Some p ->
          profiles_get acc user_id = Some p
          \/ (In user_id user_ids /\ Obs.table_profile w user_id = Some p
              /\ p <> []))
    /\ (faults w = [] ->
        faults w1 = []
        /\ forall user_id,
             profiles_get result user_id
             = if existsb (Z.eqb user_id) user_ids
                  && negb (no_profile (Obs.table_profile w user_id))
               then Obs.table_profile w user_id
               else profiles_get acc user_id).
Proof.
  induction user_ids as [|u us IH]; intros acc w; cbn [Scheduler.get_profiles_loop].
  - exists acc, w, []. rewrite app_nil_r.
    repeat split; try reflexivity; try apply same_state_refl; auto.
  - destruct (get_profile_spec u w) as (w0 & e0 & E0 & S0 & F0 & T0 & Q0).
    unfold bind at 1. rewrite E0.
    set (r := if Obs.next_fails w then None else Obs.table_profile w u) in *.
    destruct (no_profile r) eqn:Enp.
    + destruct (IH acc w0) as (res & w1 & e1 & E1 & S1 & T1 & Q1 & Hin & Hnf).
      exists res, w1, (e0 ++ e1)%list. split; [exact E1|].
      split; [eapply same_state_trans; eassumption|].
      split; [rewrite T1, T0, app_assoc; reflexivity|].
      split; [rewrite forallb_app, Q0, Q1; reflexivity|].
      split.
      * intros uid p Hp. destruct (Hin uid p Hp) as [H|(H1 & H2 & H3)]; [now left|].
        right. rewrite (table_profile_same _ _ _ S0) in H2. repeat split; auto.
        now right.
      * intros Hf. assert (Hf0 : faults w0 = []) by (rewrite F0, Hf; reflexivity).
        destruct (Hnf Hf0) as [Hf1 Hres]. split; [exact Hf1|].
        intros uid. rewrite Hres, (table_profile_same _ _ _ S0).
        cbn [existsb]. destruct (uid =? u) eqn:Eu; [|reflexivity].
        apply Z.eqb_eq in Eu. subst uid. cbn [orb].
        subst r. unfold Obs.next_fails in Enp. rewrite Hf in Enp. rewrite Enp.
        cbn [negb]. rewrite andb_false_r. reflexivity.
    + assert (Hr : exists p, r = Some p /\ p <> []).
      { destruct r as [[|x p]|]; try discriminate. eexists. split; [reflexivity|].
        discriminate. }
      destruct Hr as (p & Hr & Hp). rewrite Hr.
      destruct (IH (Scheduler.profiles_set acc u p) w0)
        as (res & w1 & e1 & E1 & S1 & T1 & Q1 & Hin & Hnf).
      exists res, w1, (e0 ++ e1)%list. split; [exact E1|].
      split; [eapply same_state_trans; eassumption|].
      split; [rewrite T1, T0, app_assoc; reflexivity|].
      split; [rewrite forallb_app, Q0, Q1; reflexivity|].
      assert (Htab : Obs.table_profile w u = Some p).
      { subst r. destruct (Obs.next_fails w); [discriminate | exact Hr]. }
      split.
      * intros uid q Hq. destruct (Hin uid q Hq) as [H|(H1 & H2 & H3)].
        -- rewrite profiles_get_set in H. destruct (u =? uid) eqn:Eu; [|now left].
           apply Z.eqb_eq in Eu. subst uid. injection H as <-.
           right. repeat split; auto. now left.
        -- right. rewrite (table_profile_same _ _ _ S0) in H2. repeat split; auto.
           now right.
      * intros Hf. assert (Hf0 : faults w0 = []) by (rewrite F0, Hf; reflexivity).
        destruct (Hnf Hf0) as [Hf1 Hres]. split; [exact Hf1|].
        intros uid. rewrite Hres, (table_profile_same _ _ _ S0), profiles_get_set.
        cbn [existsb]. destruct (uid =? u) eqn:Eu.
        -- apply Z.eqb_eq in Eu. subst uid. cbn [orb]. rewrite Htab, Z.eqb_refl.
           cbn [no_profile]. destruct p; [contradiction|]. cbn [negb andb].
           now destruct (existsb _ us).
        -- cbn [orb]. rewrite Z.eqb_sym, Eu. reflexivity.
Qed.

(** X6: [get_profiles_for_listings] never raises, calls no gateway and
    changes no state.  Every entry of its result is the non-empty profile
    row of the owner of one of the listings; when no request fails, every
    such owner with a non-empty profile has its entry. *)
Theorem get_profiles_for_listings_reads_the_table (listings : list Listing.t) (w : World) :
  exists result,
    fst (Scheduler.get_profiles_for_listings listings w) = Ok result
    /\ Obs.same_state w (snd (Scheduler.get_profiles_for_listings listings w))
    /\ Obs.bot_events
         (Obs.events_since w (snd (Scheduler.get_profiles_for_listings listings w))) = []
    /\ (forall user_id p,
          profiles_get result user_id = Some p ->
          p <> [] /\ Obs.table_profile w user_id = Some p
          /\ exists l, In l listings /\ Listing.user_id l = user_id)
    /\ (faults w = [] ->
        forall l p, In l listings -> p <> [] ->
                    Obs.table_profile w (Listing.user_id l) = Some p ->
                    profiles_get result (Listing.user_id l) = Some p).
Proof.
  unfold Scheduler.get_profiles_for_listings.
  destruct (get_profiles_loop_spec (map Listing.user_id listings) [] w)
    as (res & w1 & evs & E & S & T & Q & Hin & Hnf).
  exists res. rewrite E. cbn [fst snd].
  split; [reflexivity|]. split; [exact S|]. split.
  - rewrite (events_since_app _ _ _ T). unfold Obs.bot_events.
    clear -Q. induction evs as [|e evs IH]; [reflexivity|].
    cbn [forallb filter] in *. apply andb_true_iff in Q as [Q1 Q2].
    unfold Obs.not_bot in Q1. apply negb_true_iff in Q1. rewrite Q1. now apply IH.
  - split.
    + intros uid p Hp. destruct (Hin uid p Hp) as [H|(H1 & H2 & H3)]; [discriminate|].
      repeat split; auto. apply in_map_iff in H1 as (l & Hl & Hl'). now exists l.
    + intros Hf l p Hl Hp Htab. destruct (Hnf Hf) as [_ Hres].
      rewrite Hres, Htab.
      assert (Hex : existsb (Z.eqb (Listing.user_id l)) (map Listing.user_id listings)
                    = true).
      { apply existsb_exists. exists (Listing.user_id l). split; [|apply Z.eqb_refl].
        now apply in_map. }
      rewrite Hex. destruct p; [contradiction|]. reflexivity.
Qed.

(** * The Broadcast Synchronizer *)

Lemma bot_events_app (a b : list event) :
  Obs.bot_events (a ++ b) = (Obs.bot_events a ++ Obs.bot_events b)%list.
Proof. unfold Obs.bot_events. apply filter_app. Qed.

Lemma not_bot_events (evs : list event) :
  forallb Obs.not_bot evs = true -> Obs.bot_events evs = [].
Proof.
  unfold Obs.bot_events. induction evs as [|e evs IH]; [reflexivity|].
  cbn [forallb filter]. intros Q. apply andb_true_iff in Q as [Q1 Q2].
  unfold Obs.not_bot in Q1. apply negb_true_iff in Q1. rewrite Q1. now apply IH.
Qed.

Lemma same_state_tables (w w1 : World) : Obs.same_state w w1 -> Obs.same_tables w w1.
Proof.
  unfold Obs.same_state, Obs.same_tables. intros (A1 & A2 & A3 & A4 & A5 & A6 & A7).
  now repeat split.
Qed.

Lemma same_tables_trans (w1 w2 w3 : World) :
  Obs.same_tables w1 w2 -> Obs.same_tables w2 w3 -> Obs.same_tables w1 w3.
Proof.
  unfold Obs.same_tables.
  intros (A1 & A2 & A3 & A4 & A5) (B1 & B2 & B3 & B4 & B5). repeat split; congruence.
Qed.

(** The trace of an explicit world extends the one it started from. *)
Ltac grows :=
  cbn [trace];
  first [ exists []; rewrite app_nil_r; reflexivity
        | eexists; rewrite <- ?app_assoc; reflexivity ].

(** [events], for a run that may have added nothing. *)
Ltac events0 := events; rewrite ?skipn_all.

(** What [update_available_lists] does once it holds the listings and their
    profiles. *)
Lemma update_tail (cfg : Constants.t) (ls : list Listing.t) (profs : list (Z * dict))
      (w : World) :
  let m :=
    match ls with
    | [] => print "No active listings found. Skipping list update." []
    | _ :: _ =>
        list_content <- lift (Formatting.generate_list_message
                                ls profs (Constants.GROUP_CHAT_ID cfg)) ;;
        pinned_msg_data <- Db.get_list_message Constants.LIST_TYPE_PINNED ;;
        match pinned_msg_data with
        | Some message_id =>
            try_except
              (Bot.edit_message_text message_id list_content ;;
               print "Updated Pinned List message {}" [message_id])
              (fun e => print "Error updating Pinned List: {}" [])
        | None => print "Pinned List message ID not found in DB. Cannot update." []
        end
    end in
  (Obs.same_tables w (snd (m w))
   /\ exists evs, trace (snd (m w)) = (trace w ++ evs)%list)
  /\ ((Obs.bot_events (Obs.events_since w (snd (m w))) = []
       /\ chat (snd (m w)) = chat w)
      \/ exists message_id text r,
           Obs.bot_events (Obs.events_since w (snd (m w)))
           = [EvBot (EditMessageText message_id text) r]
           /\ ls <> []
           /\ Obs.table_pointer w Constants.LIST_TYPE_PINNED = Some message_id
           /\ Formatting.generate_list_message ls profs (Constants.GROUP_CHAT_ID cfg)
              = Ok text
           /\ chat (snd (m w))
              = match r with
                | Some _ => Bot.set_text (chat w) message_id text
                | None => chat w
                end)
  /\ (Obs.next_fails w = false ->
      forall message_id text,
        ls <> [] ->
        Obs.table_pointer w Constants.LIST_TYPE_PINNED = Some message_id ->
        Formatting.generate_list_message ls profs (Constants.GROUP_CHAT_ID cfg) = Ok text ->
        Bot.has_message (chat w) message_id = true ->
        Obs.no_fault_in 2 w = true ->
        fst (m w) = Ok tt
        /\ chat (snd (m w)) = Bot.set_text (chat w) message_id text).
Proof.
  destruct w as [ps als lms nid ch nmid ud fl tr].
  unfold Obs.same_tables, Obs.table_pointer, Obs.next_fails, Obs.no_fault_in.
  cbn [faults list_messages chat].
  destruct ls as [|l ls]; run.
  - split; [split; [now repeat split | grows]|]. split; [left; events0; now split|].
    intros _ mid text Hne. contradiction.
  - destruct (Formatting.generate_list_message (l :: ls) profs _) as [text|e] eqn:Eg; run.
    2: { split; [split; [now repeat split | grows]|]. split; [left; events0; now split|].
         intros _ mid text' _ _ Hd. discriminate. }
    destruct fl as [|f1 fl]; [|destruct f1]; run.
    2: { split; [split; [now repeat split | grows]|]. split; [left; events0; now split|].
         intros Hd. discriminate. }
    + destruct (filter _ lms) as [|[t mid] rest] eqn:Ef; run.
      * split; [split; [now repeat split | grows]|]. split; [left; events0; now split|].
        intros _ mid text' _ Hd. discriminate.
      * destruct (Bot.has_message ch mid) eqn:Eh; run.
        -- split; [split; [now repeat split | grows]|]. split.
           ++ right. exists mid, text, (Some mid). events.
              repeat split; try reflexivity. discriminate.
           ++ intros _ mid' text' _ Hp Ht _ _. injection Hp as <-. injection Ht as <-.
              now split.
        -- split; [split; [now repeat split | grows]|]. split.
           ++ right. exists mid, text, None. events.
              repeat split; try reflexivity. discriminate.
           ++ intros _ mid' text' _ Hp Ht Hh _. injection Hp as <-. congruence.
    + destruct (filter _ lms) as [|[t mid] rest] eqn:Ef; run.
      * split; [split; [now repeat split | grows]|]. split; [left; events0; now split|].
        intros _ mid text' _ Hd. discriminate.
      * destruct fl as [|f2 fl]; [|destruct f2]; run;
          destruct (Bot.has_message ch mid) eqn:Eh; run.
        all: split; [split; [now repeat split | grows]|]; split;
          [ right; first [ exists mid, text, (Some mid); events0;
                           repeat split; try reflexivity; discriminate
                         | exists mid, text, None; events0;
                           repeat split; try reflexivity; discriminate ]
          | intros _ mid' text' _ Hp Ht Hh Hf; injection Hp as <-;
            first [ injection Ht as <-; now split | congruence | discriminate ] ].
Qed.



Lemma table_pointer_same (w w1 : World) (list_type : string) :
  Obs.same_state w w1 -> Obs.table_pointer w1 list_type = Obs.table_pointer w list_type.
Proof. intros (_ & _ & H & _). unfold Obs.table_pointer. now rewrite H. Qed.

(** The start of [update_available_lists]: its line, the fetch of the
    listings and of their profiles. *)
Lemma update_head (cfg : Constants.t) (w : World) :
  exists ls profs w1 evs,
    Scheduler.update_available_lists cfg w
    = (match ls with
       | [] => print "No active listings found. Skipping list update." []
       | _ :: _ =>
           list_content <- lift (Formatting.generate_list_message
                                   ls profs (Constants.GROUP_CHAT_ID cfg)) ;;
           pinned_msg_data <- Db.get_list_message Constants.LIST_TYPE_PINNED ;;
           match pinned_msg_data with
           | Some message_id =>
               try_except
                 (Bot.edit_message_text message_id list_content ;;
                  print "Updated Pinned List message {}" [message_id])
                 (fun e => print "Error updating Pinned List: {}" [])
           | None => print "Pinned List message ID not found in DB. Cannot update." []
           end
       end) w1
    /\ Obs.same_state w w1
    /\ trace w1 = (trace w ++ evs)%list
    /\ forallb Obs.not_bot evs = true
    /\ (active_listings w = [] -> ls = [])
    /\ (faults w = [] ->
        faults w1 = []
        /\ ls = Db.order_by_last_bump_at_desc (active_listings w)
        /\ forall l, In l ls ->
             profiles_get profs (Listing.user_id l)
             = if no_profile (Obs.table_profile w (Listing.user_id l)) then None
               else Obs.table_profile w (Listing.user_id l)).
Proof.
  unfold Scheduler.update_available_lists.
  unfold bind at 1, print at 1, emit.
  set (w0 := mkWorld _ _ _ _ _ _ _ _ _).
  assert (S0 : Obs.same_state w w0) by (unfold Obs.same_state; now repeat split).
  assert (F0 : faults w0 = faults w) by reflexivity.
  destruct (get_all_spec w0) as (wa & ea & Ea & Sa & Fa & Ta & Qa).
  unfold bind at 1. rewrite Ea.
  set (ls := if Obs.next_fails w0 then [] else _) in *.
  unfold Scheduler.get_profiles_for_listings.
  destruct (get_profiles_loop_spec (map Listing.user_id ls) [] wa)
    as (profs & w1 & ep & Ep & Sp & Tp & Qp & _ & Hnf).
  unfold bind at 1. rewrite Ep.
  exists ls, profs, w1, ([EvPrint Obs.sync_mark []] ++ ea ++ ep)%list.
  split; [reflexivity|].
  split; [eapply same_state_trans; [exact S0|]; eapply same_state_trans; eassumption|].
  split; [rewrite Tp, Ta; subst w0; cbn [trace]; rewrite <- !app_assoc; reflexivity|].
  split; [cbn [app forallb]; rewrite forallb_app, Qa, Qp; reflexivity|].
  split.
  - intros Hempty. subst ls. destruct (Obs.next_fails w0); [reflexivity|].
    destruct S0 as (_ & S02 & _). rewrite S02, Hempty. reflexivity.
  - intros Hf. assert (Hfa : faults wa = []) by (rewrite Fa, F0, Hf; reflexivity).
    destruct (Hnf Hfa) as [Hf1 Hres]. split; [exact Hf1|].
    assert (Hls : ls = Db.order_by_last_bump_at_desc (active_listings w)).
    { subst ls. unfold Obs.next_fails. rewrite F0, Hf.
      destruct S0 as (_ & S02 & _). now rewrite S02. }
    split; [exact Hls|].
    intros l Hl. rewrite Hres.
    assert (Hex : existsb (Z.eqb (Listing.user_id l)) (map Listing.user_id ls) = true).
    { apply existsb_exists. exists (Listing.user_id l). split; [|apply Z.eqb_refl].
      now apply in_map. }
    rewrite Hex. cbn [andb profiles_get].
    rewrite (table_profile_same w wa _ (same_state_trans _ _ _ S0 Sa)).
    now destruct (no_profile _).
Qed.


Lemma set_text_has_message (c : list (Z * string)) (m m' : Z) (text : string) :
  Bot.has_message (Bot.set_text c m text) m' = Bot.has_message c m'.
Proof.
  unfold Bot.has_message, Bot.set_text. induction c as [|[k t] c IH]; [reflexivity|].
  cbn [map existsb fst]. rewrite IH. destruct (k =? m) eqn:E; [|reflexivity].
  apply Z.eqb_eq in E. now subst k.
Qed.

Lemma update_available_lists_effect (cfg : Constants.t) (w : World) :
  let w' := snd (Scheduler.update_available_lists cfg w) in
  let evs := Obs.events_since w w' in
  Obs.same_tables w w'
  /\ ((Obs.bot_events evs = [] /\ chat w' = chat w)
      \/ exists message_id text r,
           Obs.bot_events evs = [EvBot (EditMessageText message_id text) r]
           /\ Obs.table_pointer w Constants.LIST_TYPE_PINNED = Some message_id
           /\ active_listings w <> []
           /\ chat w' = match r with
                        | Some _ => Bot.set_text (chat w) message_id text
                        | None => chat w
                        end)
  /\ (forall message_id, Bot.has_message (chat w') message_id
                         = Bot.has_message (chat w) message_id).
Proof.
  intros w' evs. subst w' evs.
  destruct (update_head cfg w) as (ls & profs & w1 & e1 & E & S1 & T1 & Q1 & Hempty & _).
  rewrite E.
  pose proof (update_tail cfg ls profs w1) as Htail. cbv zeta in Htail.
  destruct Htail as ((St & e2 & T2) & Hcases & _).
  assert (Hev : forall wx, wx = snd
             ((match ls with
               | [] => print "No active listings found. Skipping list update." []
               | _ :: _ =>
                   list_content <- lift (Formatting.generate_list_message
                                           ls profs (Constants.GROUP_CHAT_ID cfg)) ;;
                   pinned_msg_data <- Db.get_list_message Constants.LIST_TYPE_PINNED ;;
                   match pinned_msg_data with
                   | Some message_id =>
                       try_except
                         (Bot.edit_message_text message_id list_content ;;
                          print "Updated Pinned List message {}" [message_id])
                         (fun e => print "Error updating Pinned List: {}" [])
                   | None =>
                       print "Pinned List message ID not found in DB. Cannot update." []
                   end
               end) w1) ->
             Obs.bot_events (Obs.events_since w wx)
             = Obs.bot_events (Obs.events_since w1 wx)).
  { intros wx ->.
    rewrite (events_since_app w1 _ e2 T2).
    rewrite (events_since_app w _ (e1 ++ e2)%list)
      by (rewrite T2, T1, app_assoc; reflexivity).
    rewrite bot_events_app, (not_bot_events _ Q1). reflexivity. }
  rewrite (Hev _ eq_refl).
  assert (Hchat : chat w1 = chat w) by (destruct S1 as (_ & _ & _ & _ & H & _); exact H).
  split; [eapply same_tables_trans; [apply same_state_tables; exact S1 | exact St]|].
  assert (Hdisj := Hcases).
  split.
  - destruct Hcases as [[Hb Hc]|(mid & text & r & Hb & Hne & Hp & _ & Hc)].
    + left. split; [exact Hb | congruence].
    + right. exists mid, text, r. rewrite Hb.
      split; [reflexivity|].
      split; [now rewrite <- (table_pointer_same w w1)|].
      split; [intros Hals; apply Hne; now apply Hempty|].
      rewrite Hc, Hchat. reflexivity.
  - intros m. destruct Hdisj as [[_ Hc]|(mid & text & r & _ & _ & _ & _ & Hc)];
      rewrite Hc, ?Hchat; [reflexivity|].
    destruct r; [apply set_text_has_message | reflexivity].
Qed.

(** X7: whatever the state and the failing remote calls,
    [update_available_lists] changes no table and no user data; it makes no
    gateway call, or exactly one: the edit of the message the "pinned" row
    names, and only when there is a listing.  It never adds or removes a
    message of the chat. *)
Theorem update_available_lists_only_edits_pinned (cfg : Constants.t) (w : World) :
  let w' := snd (Scheduler.update_available_lists cfg w) in
  let evs := Obs.events_since w w' in
  Obs.same_tables w w'
  /\ ((Obs.bot_events evs = [] /\ chat w' = chat w)
      \/ exists message_id text r,
           Obs.bot_events evs = [EvBot (EditMessageText message_id text) r]
           /\ Obs.table_pointer w Constants.LIST_TYPE_PINNED = Some message_id
           /\ active_listings w <> []
           /\ chat w' = match r with
                        | Some _ => Bot.set_text (chat w) message_id text
                        | None => chat w
                        end)
  /\ (forall message_id, Bot.has_message (chat w') message_id
                         = Bot.has_message (chat w) message_id).
Proof. exact (update_available_lists_effect cfg w). Qed.

Lemma profiles_get_table (w : World) (user_id : Z) :
  profiles_get (profiles w) user_id = Obs.table_profile w user_id.
Proof.
  unfold Obs.table_profile. induction (profiles w) as [|[k p] ps IH]; [reflexivity|].
  cbn [profiles_get filter fst]. destruct (k =? user_id); [reflexivity | exact IH].
Qed.

(** The summary reads the profiles through [no_profile] only. *)
Lemma generate_list_message_loop_ext (p1 p2 : list (Z * dict)) (chat_id : Z)
      (ls : list Listing.t) :
  (forall l, In l ls ->
             profiles_get p1 (Listing.user_id l)
             = if no_profile (profiles_get p2 (Listing.user_id l)) then None
               else profiles_get p2 (Listing.user_id l)) ->
  forall i message,
    Formatting.generate_list_message_loop p1 chat_id i ls message
    = Formatting.generate_list_message_loop p2 chat_id i ls message.
Proof.
  induction ls as [|l ls IH]; intros H i message; [reflexivity|].
  cbn [Formatting.generate_list_message_loop].
  rewrite (H l (or_introl eq_refl)).
  assert (IH' := IH (fun x Hx => H x (or_intror Hx))).
  destruct (profiles_get p2 (Listing.user_id l)) as [[|kv p]|]; cbn [no_profile].
  - apply IH'.
  - destruct (Formatting.escape_markdown_v2 _); [apply IH' | reflexivity].
  - apply IH'.
Qed.



(** * The countdown refresh *)

Lemma forallb_same {A : Type} (p q : A -> bool) (l : list A) :
  (forall x, p x = q x) -> forallb p l = forallb q l.
Proof.
  intros H. induction l as [|x l IH]; [reflexivity|].
  cbn [forallb]. now rewrite H, IH.
Qed.

(** The loop of [update_countdown_timers] only reads: it ends normally when
    no listing it takes has a profile, and on [AttributeError] at the first
    one that has. *)
Lemma update_countdown_loop_spec (now : Z) (ls : list Listing.t) :
  forall w : World,
  exists r w1 evs,
    Scheduler.update_countdown_loop now ls w = (r, w1)
    /\ Obs.same_state w w1
    /\ trace w1 = (trace w ++ evs)%list
    /\ forallb Obs.not_bot evs = true
    /\ (r = Ok tt \/ r = Raise AttributeError)
    /\ (faults w = [] ->
        r = if forallb (fun l => no_profile (Obs.table_profile w (Listing.user_id l))) ls
            then Ok tt else Raise AttributeError).
Proof.
  induction ls as [|l ls IH]; intros w.
  - exists (Ok tt), w, []. rewrite app_nil_r.
    repeat split; try reflexivity; try apply same_state_refl; auto.
  - destruct (get_profile_spec (Listing.user_id l) w) as (w0 & e0 & E0 & S0 & F0 & T0 & Q0).
    set (p := if Obs.next_fails w then None else _) in *.
    destruct (no_profile p) eqn:Enp.
    + cbn [Scheduler.update_countdown_loop]. unfold bind at 1. rewrite E0, Enp.
      unfold bind at 1, print, emit.
      set (w0' := mkWorld _ _ _ _ _ _ _ _ _).
      assert (S0' : Obs.same_state w0 w0') by (unfold Obs.same_state; now repeat split).
      destruct (IH w0') as (r & w1 & e1 & E1 & S1 & T1 & Q1 & Hr & Hnf).
      exists r, w1, (e0 ++ [EvPrint "Profile not found for listing {}" [Listing.id l]]
                        ++ e1)%list.
      split; [exact E1|].
      split; [exact (same_state_trans _ _ _ S0 (same_state_trans _ _ _ S0' S1))|].
      split; [rewrite T1; subst w0'; cbn [trace]; rewrite T0, <- !app_assoc;
              reflexivity|].
      split; [rewrite !forallb_app, Q0, Q1; reflexivity|].
      split; [exact Hr|].
      intros Hf. cbn [forallb].
      assert (Hp : p = Obs.table_profile w (Listing.user_id l))
        by (subst p; unfold Obs.next_fails; now rewrite Hf).
      rewrite <- Hp, Enp. cbn [andb].
      rewrite Hnf by (subst w0'; cbn [faults]; rewrite F0, Hf; reflexivity).
      assert (Hsame : forall u, Obs.table_profile w0' u = Obs.table_profile w u)
        by (intros u; apply table_profile_same;
            exact (same_state_trans _ _ _ S0 S0')).
      rewrite (forallb_same _ _ _ (fun l => f_equal no_profile (Hsame (Listing.user_id l)))).
      reflexivity.
    + exists (Raise AttributeError), w0, e0.
      split; [exact (update_countdown_loop_aborts now l ls w w0 p E0 Enp)|].
      split; [exact S0|]. split; [exact T0|]. split; [exact Q0|].
      split; [now right|].
      intros Hf. cbn [forallb].
      assert (Hp : p = Obs.table_profile w (Listing.user_id l))
        by (subst p; unfold Obs.next_fails; now rewrite Hf).
      rewrite <- Hp, Enp. reflexivity.
Qed.

Lemma update_countdown_timers_spec (now : Z) (w : World) :
  exists r w1 evs,
    Scheduler.update_countdown_timers now w = (r, w1)
    /\ Obs.same_state w w1
    /\ trace w1 = (trace w ++ evs)%list
    /\ forallb Obs.not_bot evs = true
    /\ (r = Ok tt \/ r = Raise AttributeError)
    /\ (faults w = [] ->
        r = if forallb (fun l => no_profile (Obs.table_profile w (Listing.user_id l)))
                       (active_listings w)
            then Ok tt else Raise AttributeError).
Proof.
  unfold Scheduler.update_countdown_timers.
  unfold bind at 1, print at 1, emit.
  set (w0 := mkWorld _ _ _ _ _ _ _ _ _).
  assert (S0 : Obs.same_state w w0) by (unfold Obs.same_state; now repeat split).
  assert (F0 : faults w0 = faults w) by reflexivity.
  destruct (get_all_spec w0) as (wa & ea & Ea & Sa & Fa & Ta & Qa).
  unfold bind at 1. rewrite Ea.
  set (ls := if Obs.next_fails w0 then [] else _) in *.
  destruct (update_countdown_loop_spec now ls wa)
    as (r & w1 & e1 & E1 & S1 & T1 & Q1 & Hr & Hnf).
  assert (Sw : Obs.same_state w wa) by exact (same_state_trans _ _ _ S0 Sa).
  exists r, w1, ([EvPrint "Running update_countdown_timers job..." []] ++ ea ++ e1)%list.
  split; [exact E1|].
  split; [exact (same_state_trans _ _ _ Sw S1)|].
  split; [rewrite T1, Ta; subst w0; cbn [trace]; rewrite <- !app_assoc; reflexivity|].
  split; [cbn [app forallb]; rewrite forallb_app, Qa, Q1; reflexivity|].
  split; [exact Hr|].
  intros Hf. rewrite Hnf by (rewrite Fa, F0, Hf; reflexivity).
  subst ls. unfold Obs.next_fails. rewrite F0, Hf.
  destruct S0 as (_ & S02 & _). rewrite S02, forallb_order.
  rewrite (forallb_same _ _ _ (fun l => f_equal no_profile
                                 (table_profile_same w wa (Listing.user_id l) Sw))).
  reflexivity.
Qed.

(** X9: [update_countdown_timers] never edits a message, for any state
    and any failing requests: it makes no gateway call and leaves the tables,
    the chat and the user data as they are.  It either returns normally or
    raises [AttributeError]; when no request fails it raises exactly when
    some listing has an owner with a non-empty profile. *)
Theorem update_countdown_timers_edits_nothing (now : Z) (w : World) :
  let run := Scheduler.update_countdown_timers now w in
  Obs.same_state w (snd run)
  /\ Obs.bot_events (Obs.events_since w (snd run)) = []
  /\ (fst run = Ok tt \/ fst run = Raise AttributeError)
  /\ (faults w = [] ->
      fst run
      = if forallb (fun l => no_profile (Obs.table_profile w (Listing.user_id l)))
                   (active_listings w)
        then Ok tt else Raise AttributeError).
Proof.
  cbv zeta.
  destruct (update_countdown_timers_spec now w) as (r & w1 & evs & E & S & T & Q & Hr & Hnf).
  rewrite E. cbn [fst snd].
  split; [exact S|].
  split; [rewrite (events_since_app _ _ _ T); now apply not_bot_events|].
  split; [exact Hr | exact Hnf].
Qed.


(** * The expiry sweep *)












(** * The /available command of a member *)

(** The fetch of the listings and of their profiles, as the handlers and
    the synchronizer write it. *)
Lemma fetch_listings_and_profiles (w : World) :
  exists ls profs w1 evs,
    (forall (A : Type) (k : list Listing.t -> list (Z * dict) -> M A),
        (active_listings <- Db.get_all_active_listings ;;
         profiles <- Scheduler.get_profiles_loop
                       (map Listing.user_id active_listings) [] ;;
         k active_listings profiles) w
        = k ls profs w1)
    /\ Obs.same_state w w1
    /\ trace w1 = (trace w ++ evs)%list
    /\ forallb Obs.not_bot evs = true
    /\ (faults w = [] ->
        faults w1 = []
        /\ ls = Db.order_by_last_bump_at_desc (active_listings w)
        /\ forall chat_id,
             Formatting.generate_list_message ls profs chat_id
             = Formatting.generate_list_message
                 (Db.order_by_last_bump_at_desc (active_listings w)) (profiles w) chat_id).
Proof.
  destruct (get_all_spec w) as (wa & ea & Ea & Sa & Fa & Ta & Qa).
  set (ls := if Obs.next_fails w then [] else _) in *.
  destruct (get_profiles_loop_spec (map Listing.user_id ls) [] wa)
    as (profs & w1 & ep & Ep & Sp & Tp & Qp & _ & Hnf).
  exists ls, profs, w1, (ea ++ ep)%list.
  split; [intros A k; unfold bind at 1; rewrite Ea; unfold bind at 1; rewrite Ep;
          reflexivity|].
  split; [exact (same_state_trans _ _ _ Sa Sp)|].
  split; [rewrite Tp, Ta, <- app_assoc; reflexivity|].
  split; [rewrite forallb_app, Qa, Qp; reflexivity|].
  intros Hf. assert (Hfa : faults wa = []) by (rewrite Fa, Hf; reflexivity).
  destruct (Hnf Hfa) as [Hf1 Hres]. split; [exact Hf1|].
  assert (Hls : ls = Db.order_by_last_bump_at_desc (active_listings w))
    by (subst ls; unfold Obs.next_fails; now rewrite Hf).
  split; [exact Hls|].
  intros chat_id. rewrite <- Hls. unfold Formatting.generate_list_message.
  destruct (_ =? 0); [reflexivity|].
  apply generate_list_message_loop_ext. intros l Hl.
  rewrite Hres, profiles_get_table.
  assert (Hex : existsb (Z.eqb (Listing.user_id l)) (map Listing.user_id ls) = true).
  { apply existsb_exists. exists (Listing.user_id l). split; [|apply Z.eqb_refl].
    now apply in_map. }
  rewrite Hex. cbn [andb profiles_get].
  rewrite (table_profile_same w wa _ Sa).
  now destruct (no_profile _).
Qed.

Lemma has_message_app_last (c : list (Z * string)) (message_id : Z) (text : string) :
  Bot.has_message (c ++ [(message_id, text)]) message_id = true.
Proof.
  unfold Bot.has_message. rewrite existsb_app. cbn [existsb fst].
  rewrite Z.eqb_refl. now rewrite orb_true_r.
Qed.

(** The end of [member_available_command]: the old list message is deleted,
    the new one posted and its id recorded. *)
Lemma member_tail (text : string) (old : option Z) (w : World) :
  let m :=
    match old with
    | Some message_id =>
        try_except
          (Bot.delete_message message_id)
          (fun e => print "Error deleting old chat list message {}: {}" [message_id])
    | None => ret tt
    end ;;
    try_except
      (new_message <- Bot.send_message text ;;
       Db.save_list_message Constants.LIST_TYPE_CHAT new_message ;;
       ret tt)
      (fun e => print "Error posting new chat list message: {}" []) in
  fst (m w) = Ok tt
  /\ Obs.same_records w (snd (m w))
  /\ (forall other, other <> Constants.LIST_TYPE_CHAT ->
                    Obs.table_pointer (snd (m w)) other = Obs.table_pointer w other)
  /\ (Obs.table_pointer (snd (m w)) Constants.LIST_TYPE_CHAT
      = Obs.table_pointer w Constants.LIST_TYPE_CHAT
      \/ (Obs.table_pointer (snd (m w)) Constants.LIST_TYPE_CHAT
          = Some (next_message_id w)
          /\ chat (snd (m w))
             = (match old with
                | Some message_id =>
                    if Bot.has_message (chat w) message_id
                       && negb (Obs.next_fails w)
                    then Bot.remove_message (chat w) message_id else chat w
                | None => chat w
                end ++ [(next_message_id w, text)])%list))
  /\ (faults w = [] ->
      Obs.table_pointer (snd (m w)) Constants.LIST_TYPE_CHAT = Some (next_message_id w)
      /\ chat (snd (m w))
         = (match old with
            | Some message_id => Bot.remove_message (chat w) message_id
            | None => chat w
            end ++ [(next_message_id w, text)])%list)
  /\ forallb Obs.not_edit (Obs.events_since w (snd (m w))) = true
  /\ exists evs, trace (snd (m w)) = (trace w ++ evs)%list.
Proof.
  destruct w as [ps als lms nid ch nmid ud fl tr].
  unfold Obs.same_records, Obs.table_pointer, Obs.next_fails.
  cbn [faults list_messages chat next_message_id profiles active_listings
       next_listing_id user_data].
  destruct old as [old|].
  - destruct fl as [|f1 [|f2 [|f3 fl]]];
      repeat match goal with b : bool |- _ => destruct b end;
      run_store; destruct (Bot.has_message ch old) eqn:Eh; run_store;
      cbn [list_messages chat].
    all: split; [reflexivity|]; split; [now repeat split|].
    all: split; [intros other Hne; first [reflexivity | now rewrite upsert_lookup_other]|].
    all: split;
      [ first [ left; reflexivity
              | right;
                destruct (upsert_lookup lms Constants.LIST_TYPE_CHAT nmid)
                  as (r & rest & -> & <-); split; reflexivity ]
      | ].
    all: split;
      [ intros Hd; try discriminate;
        destruct (upsert_lookup lms Constants.LIST_TYPE_CHAT nmid)
          as (r & rest & -> & <-); split; try reflexivity;
        symmetry; f_equal; apply remove_absent_message; exact Eh
      | split; [events0; reflexivity | grows] ].
  - destruct fl as [|f1 [|f2 fl]];
      repeat match goal with b : bool |- _ => destruct b end;
      run_store; cbn [list_messages chat].
    all: split; [reflexivity|]; split; [now repeat split|].
    all: split; [intros other Hne; first [reflexivity | now rewrite upsert_lookup_other]|].
    all: split;
      [ first [ left; reflexivity
              | right;
                destruct (upsert_lookup lms Constants.LIST_TYPE_CHAT nmid)
                  as (r & rest & -> & <-); split; reflexivity ]
      | ].
    all: split;
      [ intros Hd; try discriminate;
        destruct (upsert_lookup lms Constants.LIST_TYPE_CHAT nmid)
          as (r & rest & -> & <-); split; reflexivity
      | split; [events0; reflexivity | grows] ].
Qed.


Lemma not_bot_not_edit (evs : list event) :
  forallb Obs.not_bot evs = true -> forallb Obs.not_edit evs = true.
Proof.
  induction evs as [|e evs IH]; [reflexivity|].
  cbn [forallb]. intros H. apply andb_true_iff in H as [H1 H2].
  rewrite (IH H2), andb_true_r. destruct e as [| |[] |]; try reflexivity; discriminate.
Qed.

(** X11: [member_available_command].  Outside the group chat it does
    nothing.  In every case it leaves the profiles, the listings and the
    row of the pinned list as they are and edits no message; the "chat" row
    changes only to the id of a message posted in this run, which is then in
    the chat.  In the group chat, when no remote call fails, it returns
    normally: the old list message is gone, the summary of the table is the
    last message of the chat, and the "chat" row names it. *)
Theorem member_available_command_posts_the_list
        (cfg : Constants.t) (update : Admin.Update) (w : World) :
  let run := Member.member_available_command cfg update w in
  let w' := snd run in
  (Admin.effective_chat_id update <> Constants.GROUP_CHAT_ID cfg -> run = (Ok tt, w))
  /\ Obs.same_records w w'
  /\ (forall other, other <> Constants.LIST_TYPE_CHAT ->
                    Obs.table_pointer w' other = Obs.table_pointer w other)
  /\ forallb Obs.not_edit (Obs.events_since w w') = true
  /\ (Obs.table_pointer w' Constants.LIST_TYPE_CHAT
      = Obs.table_pointer w Constants.LIST_TYPE_CHAT
      \/ (Obs.table_pointer w' Constants.LIST_TYPE_CHAT = Some (next_message_id w)
          /\ Bot.has_message (chat w') (next_message_id w) = true))
  /\ (Admin.effective_chat_id update = Constants.GROUP_CHAT_ID cfg ->
      faults w = [] ->
      forall text,
        Formatting.generate_list_message
          (Db.order_by_last_bump_at_desc (active_listings w)) (profiles w)
          (Constants.GROUP_CHAT_ID cfg) = Ok text ->
        fst run = Ok tt
        /\ Obs.table_pointer w' Constants.LIST_TYPE_CHAT = Some (next_message_id w)
        /\ chat w'
           = (match Obs.table_pointer w Constants.LIST_TYPE_CHAT with
              | Some message_id => Bot.remove_message (chat w) message_id
              | None => chat w
              end ++ [(next_message_id w, text)])%list).
Proof.
  cbv zeta.
  remember (Member.member_available_command cfg update w) as run eqn:Hrun.
  unfold Member.member_available_command in Hrun.
  destruct (Admin.effective_chat_id update =? Constants.GROUP_CHAT_ID cfg) eqn:Ec;
    cbn [negb] in Hrun.
  2: { apply Z.eqb_neq in Ec. unfold ret in Hrun. subst run. cbn [fst snd].
       split; [reflexivity|]. split; [unfold Obs.same_records; now repeat split|].
       split; [reflexivity|]. split; [events0; reflexivity|].
       split; [now left|]. intros Habs. contradiction. }
  apply Z.eqb_eq in Ec.
  destruct (fetch_listings_and_profiles w)
    as (ls & profs & w1 & e1 & E & S1 & T1 & Q1 & Hnf).
  rewrite E in Hrun. clear E.
  destruct S1 as (S11 & S12 & S13 & S14 & S15 & S16 & S17).
  assert (Hp1 : forall t, Obs.table_pointer w1 t = Obs.table_pointer w t)
    by (intros t; unfold Obs.table_pointer; now rewrite S13).
  unfold bind at 1, lift in Hrun.
  destruct (Formatting.generate_list_message ls profs (Admin.effective_chat_id update))
    as [text|e] eqn:Eg.
  2: { subst run. cbn [fst snd].
       split; [intros Habs; contradiction|].
       split; [unfold Obs.same_records; now repeat split|].
       split; [intros other _; apply Hp1|].
       split; [rewrite (events_since_app _ _ _ T1); now apply not_bot_not_edit|].
       split; [left; apply Hp1|].
       intros _ Hf text Ht. destruct (Hnf Hf) as (_ & _ & Hg).
       rewrite Hg, Ec in Eg. congruence. }
  destruct (get_list_message_spec Constants.LIST_TYPE_CHAT w1)
    as (w2 & e2 & E2 & S2 & F2 & T2 & Q2).
  unfold bind at 1 in Hrun. rewrite E2 in Hrun.
  set (old := if Obs.next_fails w1 then None else _) in *.
  destruct S2 as (S21 & S22 & S23 & S24 & S25 & S26 & S27).
  assert (Hp2 : forall t, Obs.table_pointer w2 t = Obs.table_pointer w t)
    by (intros t; rewrite <- Hp1; unfold Obs.table_pointer; now rewrite S23).
  pose proof (member_tail text old w2) as Htail. cbv zeta in Htail.
  rewrite <- Hrun in Htail. clear Hrun.
  destruct Htail as (Hok & (R1 & R2 & R3 & R4) & Hother & Hchat & Hsucc & Hev & e3 & T3).
  split; [intros Habs; contradiction|].
  split; [unfold Obs.same_records; repeat split; congruence|].
  split; [intros other Hne; rewrite Hother by exact Hne; apply Hp2|].
  split.
  { rewrite (events_since_app w _ (e1 ++ e2 ++ e3)%list)
      by (rewrite T3, T2, T1, <- !app_assoc; reflexivity).
    rewrite (events_since_app w2 _ e3 T3) in Hev.
    rewrite !forallb_app, Hev, (not_bot_not_edit _ Q1), (not_bot_not_edit _ Q2).
    reflexivity. }
  split.
  { destruct Hchat as [Hc|[Hc1 Hc2]]; [left; now rewrite Hc|].
    right. split; [rewrite Hc1; congruence|].
    rewrite Hc2, <- S16, <- S26. apply has_message_app_last. }
  intros _ Hf text' Ht. destruct (Hnf Hf) as (Hf1 & _ & Hg).
  rewrite Hg, Ec, Ht in Eg. injection Eg as <-.
  assert (Hf2 : faults w2 = []) by (rewrite F2, Hf1; reflexivity).
  destruct (Hsucc Hf2) as [Hs1 Hs2].
  split; [exact Hok|]. split; [rewrite Hs1; congruence|].
  rewrite Hs2. subst old. unfold Obs.next_fails. rewrite Hf1, Hp1.
  rewrite S26, S16, S25, S15. reflexivity.
Qed.
